(* ===== verification/_CoqProject ===== *)
-Q . S2P
Prelude.v
Browser.v
Hooks.v
Home.v
Navbar.v
Projects.v
Contact.v
ContactSpec.v
ContactView.v
Content.v
Page.v
Motion.v
Layout.v
