(* ===== verification/Prelude.v ===== *)
(** * A verification development of the nihal-mishra-portfolio page

    The repository is a Next.js single page: [src/app/layout.js] (the root
    layout and its metadata) and [src/app/page.js] (the page).  The page is a
    tree of React function components:

    - [Home] (page.js 786-843) owns three [useState] cells, [isDark],
      [isScrolled] and [mobileMenuOpen], and four [useEffect]s: follow the
      OS colour scheme, apply the [dark] class and persist the theme, load
      the saved theme, and register the window [scroll] listener;
    - [Navbar] (11-107) renders from [Home]'s props and calls its setters
      (theme toggle, menu toggle, menu links that close the menu);
    - [Projects] (327-470) owns [expandedProject] and toggles it;
    - [Contact] (559-722) owns [formData] and [submitted]; its submit handler
      sets [submitted], schedules [setTimeout(() => setSubmitted(false), 3000)]
      and clears the draft;
    - [Hero], [About], [Skills], [Footer] are static content.

    Layout of the development (one file per part, in dependency order):
    - [Prelude]  this header, the [portfolio] scope and hint databases, the
                 result type of code that may throw ([js_result], [let!]),
                 the [ObjectIs] class (JavaScript's [Object.is], which React
                 uses to compare states and dependencies), [apply_all], the
                 tactics and the reflexive-transitive closure [star] of a
                 labelled step relation with its invariant lemma; the
                 [Lens] class with its round-trip laws, which the theme
                 cell behind [Navbar]'s props and each controlled input of
                 the contact form instantiate;
    - [Browser]  the browser the page runs in: [localStorage] as a
                 [gmap string string] that may be disabled (then every access
                 throws [SecurityError]), [document.documentElement.classList]
                 as a [gset string], the matching media queries,
                 [window.scrollY], window listeners (added once per
                 type/handler pair, as the DOM does) and the timer queue of
                 [setTimeout] with a clock;
    - [Hooks]    the React runtime for one component instance (a fiber):
                 [useState] updates queued and applied in order, a bailout
                 when the new state is [Object.is] the old one, [useEffect]
                 with dependency arrays compared element-wise, all cleanups
                 before all creates, in declaration order, the re-render
                 loop ([settle]) bounded by [render_limit], and an uncaught
                 error in an effect giving [Crashed];
    - [Home]     Module [Home]: the state record of [Home]'s three cells,
                 its four effects (the list [effects] in source order), its
                 mount ([mount_home]), update delivery ([dispatch]) and the
                 scroll handler ([on_scroll]); the spec's theme contract
                 ([spec_initial_theme]) and the theorems on where the code
                 departs from it;
    - [Navbar]   Module [Navbar]: the links, the rendered bar ([render]) and
                 its three handlers, proved against a props interface (the
                 classes [NavbarProps] and [NavbarPropsLaws]) that [Home]'s
                 state implements; the toggle laws and the reload scenario;
    - [Projects] Module [Projects]: the project records, [expandedProject],
                 the toggle and the card view; the selection laws;
    - [Contact]  Module [Contact]: [formData] and [submitted], the change
                 and submit handlers, the 3000 ms timer, the browser's
                 constraint validation of the form, and a step relation of
                 sessions (typing, submitting, time passing, timers firing)
                 with its invariant and timing theorems;
    - [ContactSpec] Module [ContactSpec]: the spec's two-phase machine of
                 the form (section 4.4), the abstraction of a session, and
                 the refinement theorem; the populated draft the browser
                 refuses to submit;
    - [ContactView] Module [ContactView]: what the contact card renders
                 (the success message or the form with its three
                 controlled inputs), each field as a lens on the state;
    - [Content]  Module [Content]: the static data (social links, About,
                 education, skills, the Hero's name and buttons, the footer's
                 anchors and its copyright line as bytes) and the two
                 computations made on it: [String.prototype.replace] (as
                 ECMAScript defines it) behind the text under a social link,
                 and the skill bar widths;
    - [Page]     Module [Page]: the whole tree over one browser: loading a
                 document, every event routed to the component that handles
                 it, reloads, and the invariant of all reachable pages.
    - [Motion]   Module [Motion]: the entrance animations; framer-motion's
                 viewport observer ([whileInView] with [viewport.once]),
                 delays, durations and staggered children, and every
                 animated element of the Hero, About, Projects, Skills and
                 Contact sections;
    - [Layout]   Module [Layout]: [src/app/layout.js], the [metadata]
                 export and the [html]/[body] tree of [RootLayout].

    Theorem groups.  Home: the result of a mount, the loss of a saved dark
    theme and the exact condition under which the mount meets the spec,
    the crash without storage, and the agreement of state, class list and
    stored theme after a mount and after any update.  Navbar: the toggle
    flips the theme and its icon, a second click restores both the state
    and the browser, a menu link closes the menu, and a
    toggled dark theme is lost on reload.  Projects and Contact: the
    functional behaviour of each handler, their invariants over reachable
    states, the refinement of the spec's form machine, and that after a
    submit the success message stays for the full 3000 ms.  Page: a page
    loaded with storage enabled never crashes nor loops, its theme display,
    listeners and timers stay consistent, and from every reachable page
    some run brings the contact form back.  Runtime: the re-render loop of
    [Home]'s mount terminates within one render (and the bound is tight).
    The success message can always be hidden: from every session some run
    (the timer firing) shows the form again; the model lets the browser
    delay the timer, so not every run does.  Motion: a revealed element
    never hides again, and each skill bar is full within 1300 ms of
    entering the viewport.  Content: the text under a social link drops
    its [mailto:] or [https://].  Contact view: the inputs are controlled
    (what is typed is what is shown; retyping changes nothing; the last
    edit wins).

    Bounds and fuel.  The re-render loop [settle] takes [render_limit] = 50
    renders, React's limit on nested updates before it reports a loop.  A
    mount of [Home] is the first commit and at most one more render (its
    effects enqueue updates only on mount), and any later event takes at
    most one render, so one unit of fuel is used of the 50; the theorems
    state the exact outcome [Settled], so they also show the loop never
    runs out of fuel.  Numbers are [nat] or [Z] as unbounded JavaScript
    numbers: the values involved (timestamps, percentages) stay far below
    2^53.  [window.scrollY] is an integer number of pixels here; browsers
    may report a fractional offset, and the only use of it, the test
    [scrollY > 50], has the same outcome on an offset and on its ceiling,
    so the integer model loses nothing for [isScrolled].

    Not modelled.  Markup and styling beyond what a theorem observes (the
    section headings and columns of Projects, Skills and Contact repeat
    the About ones that [Motion] models; the availability badge and the
    icons are static; the skills' [icon] strings are byte runs, not emoji,
    and are never rendered);
    images and the generated font class; framer-motion's easing curves,
    spring physics, hover and tap gestures and the repeating bounce of the
    Hero's scroll indicator (its own [animate] beside the container's
    variants, whose resolution is library internals); React's StrictMode double mount and
    concurrent rendering (the development takes one commit per render); the
    network (the form sends nothing).
*)

From stdpp Require Export base list gmap strings.
From Stdlib Require Export ZArith Lia Ascii.
Export ListNotations.

Declare Scope portfolio_scope.
Delimit Scope portfolio_scope with pf.
Open Scope string_scope.
Open Scope list_scope.

Abbreviation list_ascii_of_string := Stdlib.Strings.String.list_ascii_of_string.
Abbreviation string_of_list_ascii := Stdlib.Strings.String.string_of_list_ascii.

Create HintDb portfolio.
Create Rewrite HintDb portfolio.

(** ** Results of JavaScript code that may throw *)

(** The exceptions the modelled code can raise.  Only the Web Storage API
    throws in this page: [SecurityError] when the user agent denies access
    to [localStorage] (storage disabled, blocked third-party context). *)
Inductive js_error :=
  | SecurityError.

#[export] Instance js_error_eq_dec : EqDecision js_error.
Proof. solve_decision. Defined.

(** A computation that returns a value or throws. *)
Definition js_result (A : Type) : Type := (js_error + A)%type.

Definition ok {A} (a : A) : js_result A := inr a.
Definition throw {A} (e : js_error) : js_result A := inl e.

Definition res_bind {A B} (m : js_result A) (k : A -> js_result B) : js_result B :=
  match m with
  | inl e => inl e
  | inr a => k a
  end.

Notation "'let!' x ':=' m 'in' k" := (res_bind m (fun x => k))
  (at level 10, x name, m at level 100, k at level 200) : portfolio_scope.
Notation "'let!' ' p ':=' m 'in' k" :=
  (res_bind m (fun x => match x with p => k end))
  (at level 10, p pattern, m at level 100, k at level 200) : portfolio_scope.
Open Scope portfolio_scope.

Lemma res_bind_ok {A B} (a : A) (k : A -> js_result B) :
  res_bind (ok a) k = k a.
Proof. reflexivity. Qed.

Lemma res_bind_throw {A B} (e : js_error) (k : A -> js_result B) :
  res_bind (throw e) k = throw e.
Proof. reflexivity. Qed.

#[export] Hint Rewrite @res_bind_ok @res_bind_throw : portfolio.

(** ** [Object.is] *)

(** React compares state values and dependency values with [Object.is]:
    a boolean test that decides equality on the values the page uses. *)
Class ObjectIs (A : Type) := object_is : A -> A -> bool.

Class ObjectIsSpec (A : Type) `{ObjectIs A} :=
  object_is_spec : forall x y : A, object_is x y = true <-> x = y.

#[export] Instance object_is_bool : ObjectIs bool := Bool.eqb.

#[export] Instance object_is_bool_spec : ObjectIsSpec bool.
Proof. intros x y. apply Bool.eqb_true_iff. Qed.

#[export] Instance object_is_nat : ObjectIs nat := Nat.eqb.

#[export] Instance object_is_nat_spec : ObjectIsSpec nat.
Proof. intros x y. apply Nat.eqb_eq. Qed.

#[export] Instance object_is_string : ObjectIs string := String.eqb.

#[export] Instance object_is_string_spec : ObjectIsSpec string.
Proof. intros x y. apply String.eqb_eq. Qed.

(** [null] is a value of its own, [Object.is(null, null)] holds. *)
#[export] Instance object_is_option `{ObjectIs A} : ObjectIs (option A) :=
  fun x y => match x, y with
             | Some a, Some b => object_is a b
             | None, None => true
             | _, _ => false
             end.

#[export] Instance object_is_option_spec `{ObjectIsSpec A} : ObjectIsSpec (option A).
Proof.
  intros [a|] [b|]; cbn; split; try done.
  - by intros ->%object_is_spec.
  - intros [= ->]. apply object_is_spec. done.
Qed.

Lemma object_is_refl `{ObjectIsSpec A} (x : A) : object_is x x = true.
Proof. by apply object_is_spec. Qed.

Lemma object_is_neq `{ObjectIsSpec A} (x y : A) : x <> y -> object_is x y = false.
Proof. intros Hne. apply not_true_is_false. by rewrite object_is_spec. Qed.

(** ** Lists *)

(** Apply a queue of state updates in the order they were enqueued, as
    React does when it processes an update queue. *)
Definition apply_all {S} (q : list (S -> S)) (s : S) : S :=
  fold_left (fun acc u => u acc) q s.

Lemma apply_all_app {S} (q1 q2 : list (S -> S)) (s : S) :
  apply_all (q1 ++ q2) s = apply_all q2 (apply_all q1 s).
Proof. unfold apply_all. by rewrite fold_left_app. Qed.

Lemma apply_all_cons {S} (u : S -> S) (q : list (S -> S)) (s : S) :
  apply_all (u :: q) s = apply_all q (u s).
Proof. reflexivity. Qed.

Lemma apply_all_nil {S} (s : S) : apply_all (S := S) [] s = s.
Proof. reflexivity. Qed.

#[export] Hint Rewrite @apply_all_app @apply_all_cons @apply_all_nil : portfolio.

(** ** Tactics *)

(** Unfold a result computation: rewrite the binds away and split on the
    tests the code makes. *)
Ltac res_simpl :=
  repeat (autorewrite with portfolio in *; simpl in *).

(** Equalities of finite sets built from one element [x]: [set_solver]
    needs the case split on the element being [x]. *)
Ltac set_eq_by_cases x :=
  apply set_eq; let y := fresh "y" in intros y; destruct (decide (y = x)); set_solver.

(** ** Lenses

    A view [lens_get] of a part of a state with its update [lens_set]: a
    controlled input reads its value from the state and writes it back on
    change.  The laws are the round trips of a well-behaved lens. *)

Class Lens (S V : Type) := {
  lens_get : S -> V;
  lens_set : V -> S -> S
}.

Class LensLaws (S V : Type) `{!Lens S V} := {
  lens_get_set v s : lens_get (lens_set v s) = v;
  lens_set_get s : lens_set (lens_get s) s = s;
  lens_set_set v w s : lens_set w (lens_set v s) = lens_set w s
}.

(** ** Runs of a labelled step relation *)

Section Star.

Context {A L : Type} (R : A -> L -> A -> Prop).

(** Zero or more steps, whatever their labels. *)
Inductive star : A -> A -> Prop :=
  | star_refl a : star a a
  | star_step a l b c : R a l b -> star b c -> star a c.

Lemma star_one a l b : R a l b -> star a b.
Proof. eauto using star. Qed.

Lemma star_trans a b c : star a b -> star b c -> star a c.
Proof. induction 1; eauto using star. Qed.

(** A property kept by every step is kept by every run. *)
Lemma star_invariant (P : A -> Prop) :
  (forall a l b, P a -> R a l b -> P b) -> forall a b, star a b -> P a -> P b.
Proof. intros Hstep a b Hab. induction Hab; eauto. Qed.

End Star.

#[export] Hint Constructors star : portfolio.
