(* ===== verification/Browser.v ===== *)
(** * The browser the page runs in

    The Web APIs the page calls, modelled as an explicit state record with
    one function per API call: [localStorage.getItem]/[setItem] (throwing
    [SecurityError] when storage is disabled), [classList.add]/[remove] on
    the root element, [window.matchMedia(q).matches], [window.scrollY],
    [addEventListener]/[removeEventListener] on [window], and the timer
    queue behind [setTimeout].  Callbacks the page hands to the browser are
    defunctionalised: [listener] and [timer_cb] name the page's closures. *)

From S2P Require Import Prelude.

(** The closures the page registers with the browser. *)
Inductive listener :=
  | HandleScroll.          (** [handleScroll] of [Home], page.js 820-822 *)

Inductive timer_cb :=
  | ResetSubmitted.        (** [() => setSubmitted(false)], page.js 567 *)

#[export] Instance listener_eq_dec : EqDecision listener.
Proof. solve_decision. Defined.
#[export] Instance timer_cb_eq_dec : EqDecision timer_cb.
Proof. solve_decision. Defined.

(** A pending timer: its id, the time it is due, and its callback. *)
Record timer := Timer { tm_id : nat; tm_due : Z; tm_cb : timer_cb }.

#[export] Instance timer_eq_dec : EqDecision timer.
Proof. solve_decision. Defined.

Record browser := Browser {
  ls_enabled : bool;                  (** [false]: any storage access throws *)
  ls_items : gmap string string;      (** the [localStorage] area *)
  html_classes : gset string;         (** [document.documentElement.classList] *)
  media : gset string;                (** media queries that currently match *)
  scrollY : Z;                        (** [window.scrollY] *)
  listeners : list (string * listener); (** window listeners, in order *)
  timers : list timer;                (** pending timers, in creation order *)
  now : Z;                            (** the clock, in milliseconds *)
  next_timer_id : nat
}.

(** ** Field updates *)

Definition with_items (b : browser) (m : gmap string string) : browser :=
  Browser (ls_enabled b) m (html_classes b) (media b) (scrollY b)
    (listeners b) (timers b) (now b) (next_timer_id b).

Definition with_classes (b : browser) (c : gset string) : browser :=
  Browser (ls_enabled b) (ls_items b) c (media b) (scrollY b)
    (listeners b) (timers b) (now b) (next_timer_id b).

Definition with_scroll (b : browser) (y : Z) : browser :=
  Browser (ls_enabled b) (ls_items b) (html_classes b) (media b) y
    (listeners b) (timers b) (now b) (next_timer_id b).

Definition with_listeners (b : browser) (l : list (string * listener)) : browser :=
  Browser (ls_enabled b) (ls_items b) (html_classes b) (media b) (scrollY b)
    l (timers b) (now b) (next_timer_id b).

Definition with_timers (b : browser) (t : list timer) (n : nat) : browser :=
  Browser (ls_enabled b) (ls_items b) (html_classes b) (media b) (scrollY b)
    (listeners b) t (now b) n.

Definition with_now (b : browser) (t : Z) : browser :=
  Browser (ls_enabled b) (ls_items b) (html_classes b) (media b) (scrollY b)
    (listeners b) (timers b) t (next_timer_id b).

(** ** Web Storage *)

(** [localStorage.getItem(k)]: [null] (here [None]) when the key is absent. *)
Definition getItem (b : browser) (k : string) : js_result (option string) :=
  if ls_enabled b then ok (ls_items b !! k) else throw SecurityError.

(** [localStorage.setItem(k, v)]. *)
Definition setItem (b : browser) (k v : string) : js_result browser :=
  if ls_enabled b then ok (with_items b (<[k := v]> (ls_items b)))
  else throw SecurityError.

(** ** The root element's class list *)

Definition classList_add (b : browser) (c : string) : browser :=
  with_classes b ({[c]} ∪ html_classes b).

Definition classList_remove (b : browser) (c : string) : browser :=
  with_classes b (html_classes b ∖ {[c]}).

Definition classList_contains (b : browser) (c : string) : bool :=
  bool_decide (c ∈ html_classes b).

(** ** Media queries *)

(** [window.matchMedia(q).matches]. *)
Definition matchMedia (b : browser) (q : string) : bool :=
  bool_decide (q ∈ media b).

(** ** Window listeners *)

(** [addEventListener] does nothing when the same listener is already
    registered for the same event type. *)
Definition addEventListener (b : browser) (ty : string) (l : listener) : browser :=
  if bool_decide ((ty, l) ∈ listeners b) then b
  else with_listeners b (listeners b ++ [(ty, l)]).

Definition removeEventListener (b : browser) (ty : string) (l : listener) : browser :=
  with_listeners b (filter (fun p => p ≠ (ty, l)) (listeners b)).

(** The listeners a [ty] event reaches, in registration order. *)
Definition listeners_for (b : browser) (ty : string) : list listener :=
  snd <$> filter (fun p => p.1 = ty) (listeners b).

(** ** Timers *)

(** [setTimeout(cb, delay)]: a negative delay is treated as 0; the id is
    returned with the new browser. *)
Definition setTimeout (b : browser) (cb : timer_cb) (delay : Z) : nat * browser :=
  let id := next_timer_id b in
  (id, with_timers b (timers b ++ [Timer id (now b + Z.max 0 delay) cb]) (S id)).

(** The timer the event loop runs next: the earliest due one, the
    earliest created among equals. *)
Fixpoint earliest (ts : list timer) : option timer :=
  match ts with
  | [] => None
  | t :: ts' =>
      match earliest ts' with
      | Some t' => if bool_decide (tm_due t' < tm_due t)%Z then Some t' else Some t
      | None => Some t
      end
  end.

(** Remove a timer once it has run. *)
Definition drop_timer (b : browser) (id : nat) : browser :=
  with_timers b (filter (fun t => tm_id t ≠ id) (timers b)) (next_timer_id b).

(** Time may pass only up to the next due timer. *)
Definition can_elapse (b : browser) (dt : Z) : Prop :=
  (0 <= dt)%Z /\ Forall (fun t => now b + dt <= tm_due t)%Z (timers b).

(** ** Frame lemmas: what each call leaves unchanged *)

Lemma addEventListener_enabled b ty l :
  ls_enabled (addEventListener b ty l) = ls_enabled b.
Proof. unfold addEventListener. by case_bool_decide. Qed.

Lemma addEventListener_items b ty l :
  ls_items (addEventListener b ty l) = ls_items b.
Proof. unfold addEventListener. by case_bool_decide. Qed.

Lemma addEventListener_classes b ty l :
  html_classes (addEventListener b ty l) = html_classes b.
Proof. unfold addEventListener. by case_bool_decide. Qed.

Lemma addEventListener_media b ty l :
  media (addEventListener b ty l) = media b.
Proof. unfold addEventListener. by case_bool_decide. Qed.

Lemma with_scroll_enabled b y : ls_enabled (with_scroll b y) = ls_enabled b.
Proof. done. Qed.

Lemma with_scroll_items b y : ls_items (with_scroll b y) = ls_items b.
Proof. done. Qed.

Lemma with_scroll_classes b y : html_classes (with_scroll b y) = html_classes b.
Proof. done. Qed.

Lemma addEventListener_timers b ty l : timers (addEventListener b ty l) = timers b.
Proof. unfold addEventListener. by case_bool_decide. Qed.

Lemma addEventListener_now b ty l : now (addEventListener b ty l) = now b.
Proof. unfold addEventListener. by case_bool_decide. Qed.

(** Registering a listener on a window with no listener. *)
Lemma addEventListener_fresh b ty l :
  listeners b = [] -> listeners (addEventListener b ty l) = [(ty, l)].
Proof.
  intros Hl. unfold addEventListener. rewrite Hl.
  rewrite bool_decide_false by set_solver. done.
Qed.

#[export] Hint Rewrite addEventListener_timers addEventListener_now : portfolio.

#[export] Hint Rewrite addEventListener_enabled addEventListener_items
  addEventListener_classes addEventListener_media
  with_scroll_enabled with_scroll_items with_scroll_classes : portfolio.
