(* ===== verification/Hooks.v ===== *)
(** * The React runtime for one component instance

    A component instance (a fiber) holds the current value of its [useState]
    cells and, per [useEffect], the dependency values it last ran with and
    the cleanup it returned.  Calling a setter enqueues an update; the
    queue is applied in order before the next render; after each commit the
    effects whose dependencies changed (compared element-wise, as
    [Object.is] does) have their cleanups run first and then their
    bodies, in declaration order.  Updates enqueued by effects cause another
    render, up to a render limit.  An exception thrown by an effect body is
    not caught by any error boundary of the page, so it unmounts the root:
    the outcome [Crashed].  The lemmas show that the loop's result does not
    depend on the fuel once it settles. *)

From S2P Require Import Prelude Browser.

Section Hooks.

Context {St : Type} `{ObjectIs St}.   (** the component's state cells *)
Context {D : Type} `{ObjectIs D}.     (** values of dependency arrays *)

Definition update := St -> St.
Definition cleanup := browser -> browser.

(** A [useEffect(create, deps)]: [eff_deps] is [None] when there is no
    dependency array. *)
Record effect := Effect {
  eff_deps : option (St -> list D);
  eff_create : St -> browser -> js_result (browser * list update * option cleanup)
}.

(** What React keeps of an effect between renders. *)
Record slot := Slot { sl_deps : option (list D); sl_cleanup : option cleanup }.

Record fiber := Fiber { fb_state : St; fb_slots : list slot }.

(** [areHookInputsEqual]: the arrays agree on their common prefix. *)
Fixpoint deps_equal (next prev : list D) : bool :=
  match next, prev with
  | x :: next', y :: prev' => object_is x y && deps_equal next' prev'
  | _, _ => true
  end.

(** Does the effect run after a commit of state [s]?  [prev] is [None] on
    mount. *)
Definition fires (e : effect) (prev : option slot) (s : St) : bool :=
  match prev, eff_deps e with
  | None, _ => true
  | Some _, None => true
  | Some sl, Some f =>
      match sl_deps sl with
      | Some d => negb (deps_equal (f s) d)
      | None => true
      end
  end.

Definition deps_at (e : effect) (s : St) : option (list D) :=
  (fun f => f s) <$> eff_deps e.

Definition run_cleanup (prev : option slot) (b : browser) : browser :=
  match prev ≫= sl_cleanup with
  | Some c => c b
  | None => b
  end.

(** The cleanups of the effects that fire, in order. *)
Fixpoint cleanup_phase (es : list effect) (sls : list slot) (s : St) (b : browser)
    : browser :=
  match es with
  | [] => b
  | e :: es' =>
      let prev := head sls in
      let b' := if fires e prev s then run_cleanup prev b else b in
      cleanup_phase es' (tail sls) s b'
  end.

(** The bodies of the effects that fire, in order; the slots of the others
    are kept. *)
Fixpoint create_phase (es : list effect) (sls : list slot) (s : St) (b : browser)
    : js_result (browser * list update * list slot) :=
  match es with
  | [] => ok (b, [], [])
  | e :: es' =>
      let prev := head sls in
      if fires e prev s then
        let! '(b1, q1, c1) := eff_create e s b in
        let! '(b2, q2, sls2) := create_phase es' (tail sls) s b1 in
        ok (b2, q1 ++ q2, Slot (deps_at e s) c1 :: sls2)
      else
        let! '(b2, q2, sls2) := create_phase es' (tail sls) s b in
        ok (b2, q2, default (Slot None None) prev :: sls2)
  end.

(** Commit a render of state [s]: run the passive effects. *)
Definition commit (es : list effect) (fb : fiber) (s : St) (b : browser)
    : js_result (fiber * browser * list update) :=
  let b1 := cleanup_phase es (fb_slots fb) s b in
  let! '(b2, q, sls) := create_phase es (fb_slots fb) s b1 in
  ok (Fiber s sls, b2, q).

Inductive outcome :=
  | Settled (fb : fiber) (b : browser)
  | Crashed (e : js_error)
  | Looping.

(** Process the update queue: render, commit, and repeat while effects
    enqueue updates.  A render whose state equals the current one is
    bailed out of. *)
Fixpoint settle (fuel : nat) (es : list effect) (fb : fiber) (q : list update)
    (b : browser) : outcome :=
  match q with
  | [] => Settled fb b
  | _ :: _ =>
      let s' := apply_all q (fb_state fb) in
      if object_is s' (fb_state fb) then Settled fb b
      else match fuel with
      | O => Looping
      | S n =>
          match commit es fb s' b with
          | inl e => Crashed e
          | inr (fb', b', q') => settle n es fb' q' b'
          end
      end
  end.

(** Mount: the first commit runs every effect, then the queue settles. *)
Definition mount (es : list effect) (s0 : St) (fuel : nat) (b : browser) : outcome :=
  match commit es (Fiber s0 []) s0 b with
  | inl e => Crashed e
  | inr (fb, b', q) => settle fuel es fb q b'
  end.

End Hooks.

Arguments effect : clear implicits.
Arguments slot : clear implicits.
Arguments fiber : clear implicits.
Arguments outcome : clear implicits.

(** React's limit on nested updates ([NESTED_UPDATE_LIMIT]). *)
Definition render_limit : nat := 50.

(** ** Generic facts about the runtime *)

Section HookFacts.

Context {St : Type} `{ObjectIs St}.
Context {D : Type} `{ObjectIs D}.
Implicit Types (es : list (effect St D)) (fb : fiber St D) (q : list (update (St := St))).

Lemma settle_nil n es fb b : settle n es fb [] b = Settled fb b.
Proof. by destruct n. Qed.

(** An empty-looking queue that leaves the state as it is is bailed out
    of: no render, no effect. *)
Lemma settle_bailout n es fb q b :
  object_is (apply_all q (fb_state fb)) (fb_state fb) = true ->
  settle n es fb q b = Settled fb b.
Proof. intros Hs. destruct n, q; cbn -[apply_all]; rewrite ?Hs; done. Qed.

(** One round of the loop, when the queue changes the state. *)
Lemma settle_step n es fb q b :
  q <> [] ->
  object_is (apply_all q (fb_state fb)) (fb_state fb) = false ->
  settle (S n) es fb q b =
    match commit es fb (apply_all q (fb_state fb)) b with
    | inl e => Crashed e
    | inr (fb', b', q') => settle n es fb' q' b'
    end.
Proof. intros Hq Hs. destruct q; [done|]. cbn -[apply_all]. by rewrite Hs. Qed.

(** More fuel does not change a result reached with less: the render
    limit only matters for loops that never settle. *)
Lemma settle_fuel_mono n k es fb q b :
  settle n es fb q b <> Looping ->
  settle (n + k) es fb q b = settle n es fb q b.
Proof.
  revert fb q b. induction n as [|n IH]; intros fb q b Hn.
  all: destruct q as [|u q]; [by rewrite !settle_nil|].
  all: destruct (object_is (apply_all (u :: q) (fb_state fb)) (fb_state fb)) eqn:Hs;
       [by rewrite !settle_bailout|].
  - cbn -[apply_all] in Hn. by rewrite Hs in Hn.
  - rewrite Nat.add_succ_l, !settle_step in * by done.
    destruct (commit _ _ _ _) as [e|[[fb' b'] q']]; [done|]. by apply IH.
Qed.

(** A component with no effect: a render only replaces the state. *)
Lemma settle_stateless `{!ObjectIsSpec St} n s q b :
  settle (S n) ([] : list (effect St D)) (Fiber s []) q b = Settled (Fiber (apply_all q s) []) b.
Proof.
  destruct q as [|u q]; [done|]. cbn -[apply_all].
  destruct (object_is (apply_all (u :: q) s) s) eqn:Hs.
  - by apply (proj1 (object_is_spec _ _)) in Hs as ->.
  - apply settle_nil.
Qed.

End HookFacts.

Create HintDb hooks.
#[export] Hint Rewrite @settle_nil : portfolio.
