(* ===== verification/Home.v ===== *)
(** * The [Home] component (page.js 786-843)

    [Home]'s three state cells and its four effects, run by the runtime of
    [Hooks]: the effect that follows the OS colour scheme, the effect that
    applies the [dark] class and persists the theme (the only one with a
    non-empty dependency array, [[isDark]]), the effect that loads the saved
    theme, and the effect that registers [handleScroll].  The theorems
    compute what a mount does to the state, to [localStorage] and to the
    class list, compare it with the theme contract of the spec, and show
    the ordering defect: the second effect overwrites the saved theme before
    the third reads it. *)

From S2P Require Import Prelude Browser Hooks.

Module Home.

(** ** State *)

Record state := State { isDark : bool; isScrolled : bool; mobileMenuOpen : bool }.

#[export] Instance state_eq_dec : EqDecision state.
Proof. solve_decision. Defined.

(** React compares the three cells one by one. *)
#[export] Instance state_object_is : ObjectIs state :=
  fun s t => object_is (isDark s) (isDark t) && object_is (isScrolled s) (isScrolled t)
             && object_is (mobileMenuOpen s) (mobileMenuOpen t).

#[export] Instance state_object_is_spec : ObjectIsSpec state.
Proof.
  intros [a b c] [a' b' c']. unfold object_is, state_object_is; cbn.
  rewrite !andb_true_iff, !object_is_spec.
  split; [intros [[-> ->] ->]; done | intros Heq; injection Heq; auto].
Qed.

(** [useState(false)] three times, page.js 787-789. *)
Definition initial : state := State false false false.

Definition setIsDark (v : bool) : update (St := state) :=
  fun s => State v (isScrolled s) (mobileMenuOpen s).
Definition setIsScrolled (v : bool) : update (St := state) :=
  fun s => State (isDark s) v (mobileMenuOpen s).
Definition setMobileMenuOpen (v : bool) : update (St := state) :=
  fun s => State (isDark s) (isScrolled s) v.

(** ** Effects *)

Definition dark_query : string := "(prefers-color-scheme: dark)".

(** The value written under the key [theme], page.js 807. *)
Definition theme_value (d : bool) : string := if d then "dark" else "light".

(** JavaScript truthiness of [localStorage.getItem]'s result: [null] and
    the empty string are falsy. *)
Definition js_falsy (v : option string) : bool :=
  match v with
  | None => true
  | Some "" => true
  | Some _ => false
  end.

(** Handle dark mode, page.js 792-797. *)
Definition effect_system_theme : effect state bool := {|
  eff_deps := Some (fun _ => []);
  eff_create := fun _ b =>
    ok (b, (if matchMedia b dark_query then [setIsDark true] else []), None)
|}.

(** The class change of the apply effect, page.js 801-805. *)
Definition apply_class (d : bool) (b : browser) : browser :=
  if d then classList_add b "dark" else classList_remove b "dark".

(** Apply dark mode class and save the preference, page.js 800-808. *)
Definition effect_apply_theme : effect state bool := {|
  eff_deps := Some (fun s => [isDark s]);
  eff_create := fun s b =>
    let! b' := setItem (apply_class (isDark s) b) "theme" (theme_value (isDark s)) in
    ok (b', [], None)
|}.

(** [savedTheme === v] for the [string | null] that [getItem] returns. *)
Definition saved_is (saved : option string) (v : string) : bool :=
  match saved with
  | Some s => String.eqb s v
  | None => false
  end.

(** The test of the load effect, page.js 813. *)
Definition load_condition (saved : option string) (prefers_dark : bool) : bool :=
  saved_is saved "dark" || (js_falsy saved && prefers_dark).

(** Load saved theme, page.js 811-816. *)
Definition effect_load_theme : effect state bool := {|
  eff_deps := Some (fun _ => []);
  eff_create := fun _ b =>
    let! saved := getItem b "theme" in
    ok (b, (if load_condition saved (matchMedia b dark_query) then [setIsDark true] else []),
        None)
|}.

(** [handleScroll], page.js 820-822, as the updates it enqueues. *)
Definition handleScroll (b : browser) : list (update (St := state)) :=
  [setIsScrolled (bool_decide (scrollY b > 50)%Z)].

Definition remove_scroll : cleanup :=
  fun b => removeEventListener b "scroll" HandleScroll.

(** Handle scroll, page.js 819-825: register, and unregister on cleanup. *)
Definition effect_scroll : effect state bool := {|
  eff_deps := Some (fun _ => []);
  eff_create := fun _ b =>
    ok (addEventListener b "scroll" HandleScroll, [], Some remove_scroll)
|}.

(** The effects of [Home] in declaration order. *)
Definition effects : list (effect state bool) :=
  [effect_system_theme; effect_apply_theme; effect_load_theme; effect_scroll].

(** ** Mount and dispatch *)

Definition mount_home (b : browser) : outcome state bool :=
  mount effects initial render_limit b.

(** Deliver updates enqueued by a handler of [Home] or of its children. *)
Definition dispatch (fb : fiber state bool) (q : list (update (St := state)))
    (b : browser) : outcome state bool :=
  settle render_limit effects fb q b.

(** The updates a window listener enqueues when it runs. *)
Definition listener_updates (b : browser) (l : listener) : list (update (St := state)) :=
  match l with
  | HandleScroll => handleScroll b
  end.

(** A [scroll] event to offset [y]: the browser updates [scrollY], then
    runs the registered [scroll] listeners in order; React batches the
    updates they enqueue into one render. *)
Definition on_scroll (fb : fiber state bool) (b : browser) (y : Z) : outcome state bool :=
  let b' := with_scroll b y in
  dispatch fb (mjoin (listener_updates b' <$> listeners_for b' "scroll")) b'.

(** The fiber of a mounted [Home] whose effects last ran at state [s]. *)
Definition home_slots (s : state) : list (slot bool) :=
  [Slot (Some []) None; Slot (Some [isDark s]) None; Slot (Some []) None;
   Slot (Some []) (Some remove_scroll)].

Definition home_fiber (s : state) : fiber state bool := Fiber s (home_slots s).

(** What the apply effect does when storage is enabled. *)
Definition persist (d : bool) (b : browser) : browser :=
  with_items (apply_class d b) (<["theme" := theme_value d]> (ls_items b)).

(** The browser after a commit from [s] to [s']: only a change of [isDark]
    runs an effect. *)
Definition rerender_browser (s s' : state) (b : browser) : browser :=
  if object_is (isDark s') (isDark s) then b else persist (isDark s') b.

(** The browser after mount: the apply effect runs with [isDark = false],
    the listener is registered, and a second commit runs the apply effect
    again when the OS prefers dark. *)
Definition mounted_browser (b : browser) : browser :=
  let b2 := addEventListener (persist false b) "scroll" HandleScroll in
  if matchMedia b dark_query then persist true b2 else b2.

(** ** The theme contract of the spec (section 4.1)

    On first load the persisted preference wins; without one the OS
    preference decides; the default is light. *)
Definition spec_initial_theme (saved : option string) (prefers_dark : bool) : bool :=
  match saved with
  | Some v => String.eqb v "dark"
  | None => prefers_dark
  end.

(** The theme a mount settles on, if it settles. *)
Definition mounted_theme (b : browser) : option bool :=
  match mount_home b with
  | Settled fb _ => Some (isDark (fb_state fb))
  | _ => None
  end.

(** The React state, the class list and the stored theme agree. *)
Definition theme_synced (s : state) (b : browser) : Prop :=
  ls_enabled b = true /\
  ls_items b !! "theme" = Some (theme_value (isDark s)) /\
  ("dark" ∈ html_classes b <-> isDark s = true).

(** The saved value agrees with what the OS preference gives. *)
Definition saved_agrees (saved : option string) (prefers_dark : bool) : Prop :=
  match saved with
  | None => True
  | Some v => String.eqb v "dark" = prefers_dark
  end.

(** A browser on first visit to the page, for the examples: storage
    enabled, [saved] under [theme], the OS preferring dark or not. *)
Definition demo_browser (saved : option string) (os_dark : bool) : browser :=
  Browser true (match saved with Some v => {["theme" := v]} | None => ∅ end) ∅
    (if os_dark then {[dark_query]} else ∅) 0 [] [] 0 0.

(** ** Lemmas on the browser after the effects *)

Lemma persist_enabled d b : ls_enabled (persist d b) = ls_enabled b.
Proof. by destruct d. Qed.

Lemma persist_items d b :
  ls_items (persist d b) = <["theme" := theme_value d]> (ls_items b).
Proof. by destruct d. Qed.

Lemma persist_media d b : media (persist d b) = media b.
Proof. by destruct d. Qed.

Lemma persist_dark d b : "dark" ∈ html_classes (persist d b) <-> d = true.
Proof.
  destruct d; cbn; unfold classList_add, classList_remove; cbn; set_solver.
Qed.

(** The apply effect touches neither the listeners nor the timers. *)
Lemma persist_listeners d b : listeners (persist d b) = listeners b.
Proof. by destruct d. Qed.

Lemma persist_timers d b : timers (persist d b) = timers b.
Proof. by destruct d. Qed.

Lemma persist_now d b : now (persist d b) = now b.
Proof. by destruct d. Qed.

#[export] Hint Rewrite persist_enabled persist_items persist_media
  persist_listeners persist_timers persist_now : portfolio.

Lemma rerender_frame s s' b :
  listeners (rerender_browser s s' b) = listeners b /\
  timers (rerender_browser s s' b) = timers b /\ now (rerender_browser s s' b) = now b.
Proof.
  unfold rerender_browser. destruct (object_is _ _); [done|].
  by autorewrite with portfolio.
Qed.

(** The theme agreement only reads storage and the class list. *)
Lemma synced_frame s b b' :
  ls_enabled b' = ls_enabled b -> ls_items b' = ls_items b ->
  html_classes b' = html_classes b -> theme_synced s b -> theme_synced s b'.
Proof. unfold theme_synced. intros -> -> ->. done. Qed.

(** ** The runtime on [Home]'s effects *)

(** A commit of a mounted [Home]: only the apply effect can fire, and only
    when [isDark] changed; no effect enqueues an update. *)
Lemma commit_home s s' b :
  ls_enabled b = true ->
  commit effects (home_fiber s) s' b = ok (home_fiber s', rerender_browser s s' b, []).
Proof.
  intros Hen. destruct s as [[] ? ?], s' as [[] ? ?];
    unfold commit, rerender_browser, persist; cbn;
    unfold setItem, classList_add, classList_remove; cbn; rewrite ?Hen; reflexivity.
Qed.

(** Delivering a queue to a mounted [Home] settles in one round. *)
Lemma settle_home n s q b :
  ls_enabled b = true ->
  settle (S n) effects (home_fiber s) q b =
    Settled (home_fiber (apply_all q s)) (rerender_browser s (apply_all q s) b).
Proof.
  intros Hen. destruct q as [|u q]; cbn -[apply_all commit].
  - unfold rerender_browser. by rewrite object_is_refl.
  - destruct (object_is (apply_all (u :: q) s) s) eqn:Heq.
    + apply (proj1 (object_is_spec _ _)) in Heq. rewrite Heq.
      unfold rerender_browser. by rewrite object_is_refl.
    + rewrite commit_home by done. cbn. by rewrite settle_nil.
Qed.

(** The first commit runs the four effects on the initial state. *)
Lemma commit_mount b :
  ls_enabled b = true ->
  commit effects (Fiber initial []) initial b =
    ok (home_fiber initial, addEventListener (persist false b) "scroll" HandleScroll,
        if matchMedia b dark_query then [setIsDark true] else []).
Proof.
  intros Hen. unfold commit, persist; cbn -[addEventListener].
  unfold setItem, getItem, classList_remove; cbn -[addEventListener].
  rewrite Hen. cbn -[addEventListener].
  rewrite lookup_insert_eq, Hen. cbn -[addEventListener].
  destruct (matchMedia b dark_query); reflexivity.
Qed.

Lemma rerender_same_dark s s' b :
  isDark s' = isDark s -> rerender_browser s s' b = b.
Proof. intros Hd. unfold rerender_browser. by rewrite Hd, object_is_refl. Qed.

Lemma persist_synced s d b :
  ls_enabled b = true -> isDark s = d -> theme_synced s (persist d b).
Proof.
  intros Hen <-. split; [by rewrite persist_enabled|].
  rewrite persist_items, lookup_insert_eq. split; [done|]. apply persist_dark.
Qed.

Lemma rerender_synced s s' b :
  theme_synced s b -> theme_synced s' (rerender_browser s s' b).
Proof.
  intros Hs. unfold rerender_browser.
  destruct (object_is (isDark s') (isDark s)) eqn:Hd.
  - apply (proj1 (object_is_spec _ _)) in Hd. destruct Hs as (? & ? & ?).
    unfold theme_synced. by rewrite Hd.
  - apply persist_synced; [apply Hs | done].
Qed.

Lemma synced_addEventListener s b ty l :
  theme_synced s b -> theme_synced s (addEventListener b ty l).
Proof. unfold theme_synced. by autorewrite with portfolio. Qed.

(** Running the apply effect with the other value and then back restores
    the browser exactly. *)
Lemma persist_twice s d b :
  theme_synced s b -> persist (isDark s) (persist d b) = b.
Proof.
  intros (Hen & Hitem & Hcls).
  destruct b as [en items cls med y ls ts t n]; cbn in *.
  unfold persist, apply_class, classList_add, classList_remove, with_items, with_classes.
  destruct (isDark s); [assert (Hd : "dark" ∈ cls) by (by apply Hcls)
                      | assert (Hd : "dark" ∉ cls) by (by intros ?%Hcls)];
    cbn in Hitem; destruct d; cbn; f_equal; rewrite ?insert_insert_eq; try (by apply insert_id);
    clear - Hd; set_eq_by_cases "dark".
Qed.

#[export] Hint Resolve persist_synced rerender_synced synced_addEventListener : portfolio.

(** A scroll event delivered to a mounted [Home] with its one listener. *)
Lemma on_scroll_eq s b y :
  theme_synced s b ->
  listeners_for b "scroll" = [HandleScroll] ->
  on_scroll (home_fiber s) b y =
    Settled (home_fiber (State (isDark s) (bool_decide (y > 50)%Z) (mobileMenuOpen s)))
      (with_scroll b y).
Proof.
  intros Hs Hl. unfold on_scroll, dispatch, render_limit.
  change (listeners_for (with_scroll b y) "scroll") with (listeners_for b "scroll").
  rewrite Hl. cbn -[settle]. rewrite settle_home by (destruct Hs; done).
  by rewrite rerender_same_dark.
Qed.

(** ** Theorems *)

(** The mount, computed: one commit of the four effects, then one more
    render when the OS prefers dark. *)
(** A mount with storage enabled, at any fuel of at least one render. *)
Lemma mount_fuel_eq n b :
  ls_enabled b = true ->
  mount effects initial (S n) b =
    Settled (home_fiber (State (matchMedia b dark_query) false false)) (mounted_browser b).
Proof.
  intros Hen. unfold mount. rewrite commit_mount by done.
  cbn -[settle addEventListener persist].
  unfold mounted_browser. destruct (matchMedia b dark_query).
  - rewrite settle_home by (by autorewrite with portfolio). reflexivity.
  - by rewrite settle_nil.
Qed.

(** Without storage the first commit throws, whatever the fuel. *)
Lemma mount_fuel_disabled n b :
  ls_enabled b = false -> mount effects initial n b = Crashed SecurityError.
Proof.
  intros Hdis. unfold mount, commit; cbn.
  unfold setItem, classList_remove; cbn. by rewrite Hdis.
Qed.

Lemma mount_home_eq b :
  ls_enabled b = true ->
  mount_home b =
    Settled (home_fiber (State (matchMedia b dark_query) false false)) (mounted_browser b).
Proof. apply mount_fuel_eq. Qed.

Lemma mounted_theme_ok b :
  ls_enabled b = true -> mounted_theme b = Some (matchMedia b dark_query).
Proof. intros Hen. unfold mounted_theme. by rewrite mount_home_eq. Qed.

(** C3: the theme a mount settles on meets the spec's contract (saved
    preference first, then the OS) exactly when no theme is saved or the
    saved one agrees with the OS preference: the saved preference itself
    never decides. *)
Theorem mount_spec_agreement b :
  ls_enabled b = true ->
  mounted_theme b = Some (spec_initial_theme (ls_items b !! "theme") (matchMedia b dark_query))
  <-> saved_agrees (ls_items b !! "theme") (matchMedia b dark_query).
Proof.
  intros Hen. rewrite mounted_theme_ok by done.
  destruct (ls_items b !! "theme") as [v|]; cbn; [|done].
  split; [by intros [= ->] | by intros ->].
Qed.

(** C2: a saved dark theme is lost on load when the OS prefers light: the
    spec's contract gives dark, the page settles on light, and the stored
    value is overwritten with "light" by the apply effect before the load
    effect reads it. *)
Theorem mount_discards_saved_dark b :
  ls_enabled b = true ->
  ls_items b !! "theme" = Some "dark" ->
  matchMedia b dark_query = false ->
  spec_initial_theme (ls_items b !! "theme") (matchMedia b dark_query) = true /\
  exists b', mount_home b = Settled (home_fiber initial) b' /\
             ls_items b' !! "theme" = Some "light".
Proof.
  intros Hen Hsaved Hos. rewrite Hsaved. split; [done|].
  rewrite mount_home_eq by done. rewrite Hos.
  eexists; split; [reflexivity|].
  unfold mounted_browser. rewrite Hos. autorewrite with portfolio.
  by rewrite lookup_insert_eq.
Qed.

(** C5: with storage disabled, the first commit throws from
    [localStorage.setItem] in the apply effect; no error boundary catches
    it, so the page crashes instead of ignoring the failed write. *)
Theorem mount_crashes_without_storage b :
  ls_enabled b = false -> mount_home b = Crashed SecurityError.
Proof.
  apply mount_fuel_disabled.
Qed.

(** C8: after a successful mount the React state, the [dark] class and
    the stored theme agree. *)
Theorem mount_establishes_sync b :
  ls_enabled b = true ->
  exists s b', mount_home b = Settled (home_fiber s) b' /\ theme_synced s b'.
Proof.
  intros Hen. rewrite mount_home_eq by done.
  do 2 eexists; split; [reflexivity|]. unfold mounted_browser.
  destruct (matchMedia b dark_query).
  - apply persist_synced; [by autorewrite with portfolio | done].
  - apply synced_addEventListener, persist_synced; done.
Qed.

(** C7: delivering any queue of updates to a mounted [Home] whose state,
    class list and stored theme agree settles in one render and keeps them
    in agreement: the apply effect runs exactly when [isDark] changes. *)
Theorem dispatch_preserves_sync s q b :
  theme_synced s b ->
  dispatch (home_fiber s) q b =
    Settled (home_fiber (apply_all q s)) (rerender_browser s (apply_all q s) b) /\
  theme_synced (apply_all q s) (rerender_browser s (apply_all q s) b).
Proof.
  intros Hs. split; [|by apply rerender_synced].
  unfold dispatch, render_limit. apply settle_home, Hs.
Qed.

(** C1: with storage enabled, mounting [Home] settles with [isDark] equal
    to the OS preference and [isScrolled] and [mobileMenuOpen] false, after
    one extra render at most, in the browser [mounted_browser b]: the
    apply effect ran with [false], the scroll listener is registered, and
    the apply effect ran again with [true] when the OS prefers dark. *)
Theorem mount_home_result b :
  ls_enabled b = true ->
  mount_home b =
    Settled (home_fiber (State (matchMedia b dark_query) false false)) (mounted_browser b).
Proof. apply mount_home_eq. Qed.

(** C24: once [Home] is mounted and its listener is the one [scroll]
    listener, a scroll to offset [y] sets [isScrolled] to [y > 50] and
    leaves the other cells, the class list and the storage as they are. *)
Theorem scroll_sets_isScrolled s b y :
  theme_synced s b ->
  listeners_for b "scroll" = [HandleScroll] ->
  on_scroll (home_fiber s) b y =
    Settled (home_fiber (State (isDark s) (bool_decide (y > 50)%Z) (mobileMenuOpen s)))
      (with_scroll b y).
Proof. apply on_scroll_eq. Qed.

(** C19: the re-render loop of a mount terminates after at most one
    render beyond the first commit: any fuel of at least one render gives
    the outcome the render limit gives, and that outcome is never a loop;
    the bound is tight, since with no render left a mount loops exactly
    when storage works and the OS prefers dark (the one effect update). *)
Theorem mount_home_terminates n b :
  mount effects initial (S n) b = mount_home b /\ mount_home b <> Looping /\
  (mount effects initial 0 b = Looping <->
   ls_enabled b = true /\ matchMedia b dark_query = true).
Proof.
  destruct (ls_enabled b) eqn:Hen.
  - rewrite mount_home_eq, mount_fuel_eq by done. do 2 (split; [done|]).
    unfold mount. rewrite commit_mount by done.
    destruct (matchMedia b dark_query); cbn; split; try done; by intros [_ ?].
  - unfold mount_home.
    rewrite !mount_fuel_disabled by done. split; [done|split; [done|]].
    split; [done|by intros [? _]].
Qed.

(** ** Witnesses *)

Lemma mount_home_result_witness :
  ls_enabled (demo_browser None true) = true /\
  mount_home (demo_browser None true) =
    Settled (home_fiber (State true false false)) (mounted_browser (demo_browser None true)).
Proof. split; [reflexivity | apply (mount_home_result (demo_browser None true)); reflexivity]. Defined.

Lemma mount_spec_agreement_witness :
  mounted_theme (demo_browser (Some "dark") false) <>
    Some (spec_initial_theme (Some "dark") false).
Proof.
  intros H. apply (mount_spec_agreement (demo_browser (Some "dark") false) eq_refl) in H.
  vm_compute in H. discriminate.
Defined.

Lemma mount_discards_saved_dark_witness :
  spec_initial_theme (Some "dark") false = true /\
  exists b', mount_home (demo_browser (Some "dark") false) = Settled (home_fiber initial) b' /\
             ls_items b' !! "theme" = Some "light".
Proof.
  apply (mount_discards_saved_dark (demo_browser (Some "dark") false));
    vm_compute; reflexivity.
Defined.

Lemma mount_crashes_without_storage_witness :
  mount_home (Browser false ∅ ∅ ∅ 0 [] [] 0 0) = Crashed SecurityError.
Proof. apply mount_crashes_without_storage. reflexivity. Defined.

Lemma mount_establishes_sync_witness :
  exists s b', mount_home (demo_browser None true) = Settled (home_fiber s) b' /\
               theme_synced s b'.
Proof. apply mount_establishes_sync. reflexivity. Defined.

Lemma dispatch_preserves_sync_witness :
  let b := persist false (demo_browser None false) in
  dispatch (home_fiber initial) [setIsDark true] b =
    Settled (home_fiber (State true false false)) (persist true b) /\
  theme_synced (State true false false) (persist true b).
Proof.
  intros b. apply (dispatch_preserves_sync initial [setIsDark true] b).
  apply persist_synced; reflexivity.
Defined.

Lemma scroll_sets_isScrolled_witness :
  let b := mounted_browser (demo_browser None false) in
  on_scroll (home_fiber initial) b 50 =
    Settled (home_fiber (State false false false)) (with_scroll b 50) /\
  on_scroll (home_fiber initial) b 51 =
    Settled (home_fiber (State false true false)) (with_scroll b 51).
Proof.
  intros b. split; apply (scroll_sets_isScrolled initial b);
    try (apply persist_synced; reflexivity); reflexivity.
Defined.

Lemma mount_home_terminates_witness :
  mount effects initial 0 (demo_browser None true) = Looping /\
  mount effects initial 1 (demo_browser None true) = mount_home (demo_browser None true).
Proof.
  pose proof (mount_home_terminates 0 (demo_browser None true)) as (H1 & _ & H0).
  split; [apply H0; split; reflexivity | exact H1].
Defined.

End Home.
