(* ===== verification/Navbar.v ===== *)
(** * The [Navbar] component (page.js 11-107)

    [Navbar] has no state of its own: it renders from the props [Home]
    passes (page.js 829-835) and its click handlers call [Home]'s setters.
    The interface between the two is the class [NavbarProps] (the props)
    with its laws [NavbarPropsLaws]; [Navbar]'s handlers and view are
    defined and proved against the interface, and [Home]'s state discharges
    it.  With [Home]'s runtime lemmas, the theme toggle is followed through
    the apply effect into the class list and [localStorage], and through a
    reload of the page. *)

From S2P Require Import Prelude Browser Hooks Home.

Module Navbar.

(** ** Data *)

Record navLink := NavLink { link_name : string; link_href : string }.

(** page.js 12-17 *)
Definition navLinks : list navLink :=
  [NavLink "About" "#about"; NavLink "Projects" "#projects";
   NavLink "Skills" "#skills"; NavLink "Contact" "#contact"].

(** The lucide icons the bar shows. *)
Inductive icon := Sun | Moon | MenuIcon | XIcon.

#[export] Instance icon_eq_dec : EqDecision icon.
Proof. solve_decision. Defined.

(** ** The interface [Home] offers [Navbar] *)

Class NavbarProps (S : Type) := {
  prop_isDark : S -> bool;
  prop_isScrolled : S -> bool;
  prop_mobileMenuOpen : S -> bool;
  prop_setIsDark : bool -> S -> S;
  prop_setMobileMenuOpen : bool -> S -> S
}.

(** The theme cell as a lens on the parent's state. *)
Definition isDark_lens {S : Type} `{NavbarProps S} : Lens S bool := {|
  lens_get := prop_isDark;
  lens_set := prop_setIsDark
|}.

(** The theme cell is a well-behaved lens (setting twice keeps the last
    value, setting the current value changes nothing); each setter sets
    its own cell and no other. *)
Class NavbarPropsLaws (S : Type) `{NavbarProps S} := {
  isDark_lens_laws :: LensLaws S bool (Lens0 := isDark_lens);
  menu_setMenu v s : prop_mobileMenuOpen (prop_setMobileMenuOpen v s) = v;
  isDark_setMenu v s : prop_isDark (prop_setMobileMenuOpen v s) = prop_isDark s;
  menu_setIsDark v s : prop_mobileMenuOpen (prop_setIsDark v s) = prop_mobileMenuOpen s;
  scrolled_setIsDark v s : prop_isScrolled (prop_setIsDark v s) = prop_isScrolled s;
  scrolled_setMenu v s : prop_isScrolled (prop_setMobileMenuOpen v s) = prop_isScrolled s
}.

(** ** Handlers and view *)

Section Navbar.

Context {S : Type} `{NavbarProps S}.

(** The two theme buttons, page.js 53 and 65: [setIsDark(!isDark)]. *)
Definition onThemeToggle (s : S) : list (S -> S) :=
  [prop_setIsDark (negb (prop_isDark s))].

(** The menu button, page.js 72: [setMobileMenuOpen(!mobileMenuOpen)]. *)
Definition onMenuToggle (s : S) : list (S -> S) :=
  [prop_setMobileMenuOpen (negb (prop_mobileMenuOpen s))].

(** A link of the mobile menu, page.js 95: [setMobileMenuOpen(false)]. *)
Definition onMobileLinkClick (s : S) : list (S -> S) :=
  [prop_setMobileMenuOpen false].

(** What the bar shows. *)
Record view := View {
  nav_className : string;
  theme_icon : icon;
  menu_icon : icon;
  mobile_menu : option (list navLink)   (** [None]: the menu is not rendered *)
}.

(** The [className] template of page.js 23-25. *)
Definition nav_class (scrolled : bool) : string :=
  "fixed top-0 left-0 right-0 z-50 transition-all duration-300 " ++
  (if scrolled then "glass shadow-lg" else "bg-transparent").

(** page.js 19-105 *)
Definition render (s : S) : view := {|
  nav_className := nav_class (prop_isScrolled s);
  theme_icon := if prop_isDark s then Sun else Moon;
  menu_icon := if prop_mobileMenuOpen s then XIcon else MenuIcon;
  mobile_menu := if prop_mobileMenuOpen s then Some navLinks else None
|}.

End Navbar.

(** ** [Home] provides the props *)

#[export] Instance home_navbar_props : NavbarProps Home.state := {|
  prop_isDark := Home.isDark;
  prop_isScrolled := Home.isScrolled;
  prop_mobileMenuOpen := Home.mobileMenuOpen;
  prop_setIsDark := Home.setIsDark;
  prop_setMobileMenuOpen := Home.setMobileMenuOpen
|}.

#[export] Instance home_navbar_props_laws : NavbarPropsLaws Home.state.
Proof.
  split; [split|..]; intros; repeat match goal with s : Home.state |- _ => destruct s end; done.
Qed.

(** A page reload: a new document with the same storage, media and clock;
    the class list, listeners and timers of the old document are gone. *)
Definition reload (b : browser) : browser :=
  Browser (ls_enabled b) (ls_items b) ∅ (media b) (scrollY b) [] [] (now b)
    (next_timer_id b).

(** ** Theorems against the interface *)

Section NavbarLaws.

Context {S : Type} `{NavbarPropsLaws S}.

(** The lens laws of the theme cell, read on the props. *)
Lemma isDark_setIsDark v (s : S) : prop_isDark (prop_setIsDark v s) = v.
Proof. exact (lens_get_set (Lens0 := isDark_lens) v s). Qed.

Lemma setIsDark_setIsDark v w (s : S) :
  prop_setIsDark v (prop_setIsDark w s) = prop_setIsDark v s.
Proof. exact (lens_set_set (Lens0 := isDark_lens) w v s). Qed.

Lemma setIsDark_id (s : S) : prop_setIsDark (prop_isDark s) s = s.
Proof. exact (lens_set_get (Lens0 := isDark_lens) s). Qed.

Lemma theme_toggle_flips (s : S) :
  prop_isDark (apply_all (onThemeToggle s) s) = negb (prop_isDark s).
Proof. apply isDark_setIsDark. Qed.

(** C25: the theme button flips the theme and nothing else, and a
    second click, handled after the re-render, restores every cell: the
    first click negates [isDark] and swaps the rendered icon, keeps the
    menu and scroll cells, and the second click gives back the state. *)
Theorem theme_toggle_involutive (s : S) :
  let s1 := apply_all (onThemeToggle s) s in
  prop_isDark s1 = negb (prop_isDark s) /\
  theme_icon (render s1) <> theme_icon (render s) /\
  prop_mobileMenuOpen s1 = prop_mobileMenuOpen s /\
  prop_isScrolled s1 = prop_isScrolled s /\
  apply_all (onThemeToggle s1) s1 = s.
Proof.
  cbn. split; [apply isDark_setIsDark|]. split.
  - rewrite isDark_setIsDark. by destruct (prop_isDark s).
  - split; [apply menu_setIsDark|]. split; [apply scrolled_setIsDark|].
    rewrite isDark_setIsDark, setIsDark_setIsDark, negb_involutive.
    apply setIsDark_id.
Qed.

(** C26: a link of the mobile menu closes the menu, which is then no
    longer rendered, and leaves the theme as it was. *)
Theorem mobile_link_closes_menu (s : S) :
  let s1 := apply_all (onMobileLinkClick s) s in
  prop_mobileMenuOpen s1 = false /\ mobile_menu (render s1) = None /\
  menu_icon (render s1) = MenuIcon /\ prop_isDark s1 = prop_isDark s.
Proof. cbn. rewrite menu_setMenu, isDark_setMenu. done. Qed.

End NavbarLaws.

(** ** The theme button through [Home]'s effects *)

Lemma home_toggle_twice (s : Home.state) :
  Home.setIsDark (negb (Home.isDark (Home.setIsDark (negb (Home.isDark s)) s)))
    (Home.setIsDark (negb (Home.isDark s)) s) = s.
Proof. by destruct s as [[] ? ?]. Qed.

(** C12: from a mounted [Home] whose state, class list and stored theme
    agree, a click on the theme button stores the other theme, and a second
    click restores the state and the whole browser exactly. *)
Theorem theme_toggle_twice_restores (s : Home.state) (b : browser) :
  Home.theme_synced s b ->
  let s1 := Home.setIsDark (negb (Home.isDark s)) s in
  exists b1,
    Home.dispatch (Home.home_fiber s) (onThemeToggle s) b = Settled (Home.home_fiber s1) b1 /\
    ls_items b1 !! "theme" = Some (Home.theme_value (negb (Home.isDark s))) /\
    Home.dispatch (Home.home_fiber s1) (onThemeToggle s1) b1 = Settled (Home.home_fiber s) b.
Proof.
  intros Hs s1. pose proof Hs as (Hen & _ & _).
  unfold Home.dispatch, render_limit. rewrite Home.settle_home by done.
  eexists; split; [reflexivity|].
  assert (Hflip : Home.rerender_browser s (apply_all (onThemeToggle s) s) b
                  = Home.persist (negb (Home.isDark s)) b).
  { unfold Home.rerender_browser. cbn. by destruct (Home.isDark s). }
  rewrite Hflip, Home.persist_items, lookup_insert_eq. split; [done|].
  rewrite Home.settle_home by (by rewrite Home.persist_enabled).
  cbn [apply_all fold_left onThemeToggle prop_setIsDark prop_isDark home_navbar_props].
  unfold s1. rewrite home_toggle_twice. f_equal.
  unfold Home.rerender_browser. cbn. destruct (Home.isDark s) eqn:Hd; cbn;
    rewrite <- Hd; by apply Home.persist_twice.
Qed.

(** C4: a theme chosen with the button does not survive a reload when it
    differs from the OS preference: after mount, a click on the theme
    button stores "dark", but the next load settles on light and stores
    "light" again. *)
Theorem toggle_dark_lost_on_reload (b : browser) :
  ls_enabled b = true ->
  matchMedia b Home.dark_query = false ->
  exists b1 b2 b3,
    Home.mount_home b = Settled (Home.home_fiber Home.initial) b1 /\
    Home.dispatch (Home.home_fiber Home.initial) (onThemeToggle Home.initial) b1 =
      Settled (Home.home_fiber (Home.State true false false)) b2 /\
    ls_items b2 !! "theme" = Some "dark" /\
    Home.mount_home (reload b2) = Settled (Home.home_fiber Home.initial) b3 /\
    ls_items b3 !! "theme" = Some "light".
Proof.
  intros Hen Hos.
  set (b1 := Home.mounted_browser b). set (b2 := Home.persist true b1).
  assert (Hen1 : ls_enabled b1 = true).
  { unfold b1, Home.mounted_browser. rewrite Hos. by autorewrite with portfolio. }
  assert (Hm : matchMedia (reload b2) Home.dark_query = false).
  { unfold b2, b1, reload, Home.mounted_browser. rewrite Hos. cbn.
    by autorewrite with portfolio. }
  exists b1, b2, (Home.mounted_browser (reload b2)).
  rewrite Home.mount_home_eq by done. rewrite Hos. split; [reflexivity|].
  unfold Home.dispatch, render_limit. rewrite Home.settle_home by done.
  split; [reflexivity|].
  unfold b2. rewrite Home.persist_items, lookup_insert_eq. split; [done|].
  rewrite Home.mount_home_eq by (cbn; by autorewrite with portfolio).
  fold b2. rewrite Hm. split; [reflexivity|].
  unfold Home.mounted_browser. rewrite Hm. cbv beta iota.
  by rewrite addEventListener_items, Home.persist_items, lookup_insert_eq.
Qed.

(** ** Witnesses *)

Lemma theme_toggle_twice_restores_witness :
  let b := Home.persist false (Home.demo_browser None false) in
  exists b1,
    Home.dispatch (Home.home_fiber Home.initial) (onThemeToggle Home.initial) b =
      Settled (Home.home_fiber (Home.State true false false)) b1 /\
    ls_items b1 !! "theme" = Some "dark" /\
    Home.dispatch (Home.home_fiber (Home.State true false false))
      (onThemeToggle (Home.State true false false)) b1 = Settled (Home.home_fiber Home.initial) b.
Proof.
  intros b. apply (theme_toggle_twice_restores Home.initial b).
  apply Home.persist_synced; reflexivity.
Defined.

Lemma toggle_dark_lost_on_reload_witness :
  exists b1 b2 b3,
    Home.mount_home (Home.demo_browser (Some "dark") false) =
      Settled (Home.home_fiber Home.initial) b1 /\
    Home.dispatch (Home.home_fiber Home.initial) (onThemeToggle Home.initial) b1 =
      Settled (Home.home_fiber (Home.State true false false)) b2 /\
    ls_items b2 !! "theme" = Some "dark" /\
    Home.mount_home (reload b2) = Settled (Home.home_fiber Home.initial) b3 /\
    ls_items b3 !! "theme" = Some "light".
Proof. apply toggle_dark_lost_on_reload; reflexivity. Defined.

Lemma theme_toggle_involutive_witness :
  let s1 := apply_all (onThemeToggle Home.initial) Home.initial in
  prop_isDark s1 = true /\ theme_icon (render s1) <> theme_icon (render Home.initial) /\
  prop_mobileMenuOpen s1 = false /\ prop_isScrolled s1 = false /\
  apply_all (onThemeToggle s1) s1 = Home.initial.
Proof. exact (theme_toggle_involutive (S := Home.state) Home.initial). Defined.

Lemma mobile_link_closes_menu_witness :
  let s := Home.State true false true in
  let s1 := apply_all (onMobileLinkClick s) s in
  prop_mobileMenuOpen s1 = false /\ mobile_menu (render s1) = None /\
  menu_icon (render s1) = MenuIcon /\ prop_isDark s1 = prop_isDark s.
Proof. apply (mobile_link_closes_menu (S := Home.state)). Defined.

End Navbar.
