(* ===== verification/Projects.v ===== *)
(** * The [Projects] component (page.js 327-470)

    Three static project records and one state cell, [expandedProject]
    ([null] or a project id).  Each card's button sets the cell to [null]
    when the card is the expanded one and to the card's id otherwise; a
    card shows its case study when the cell holds its id and the problem
    summary otherwise.  The component has no effect, so a click settles in
    one render of the [Hooks] runtime.  The theorems: the toggle laws of
    the spec, the selection stays [null] or the id of a listed project,
    and, because the ids are distinct, at most one card (exactly one when
    the cell is set) shows its case study. *)

From S2P Require Import Prelude Browser Hooks.

Module Projects.

(** ** Data *)

Record project := Project {
  id : nat; title : string; category : string; image : string;
  problem : string; research : string; solution : string;
  tools : list string; outcome : string
}.

(** page.js 328-362 *)
Definition projects : list project := [
  Project 1 "Sales Analytics Dashboard" "Data Visualization"
    "https://images.unsplash.com/photo-1551288049-bebda4e38f71?w=800&h=400&fit=crop"
    "Sales teams were struggling to visualize their performance data, leading to poor decision-making and missed targets."
    "Conducted user interviews with 15+ sales representatives, analyzed current workflows, and studied competitor dashboards."
    "Designed an intuitive dashboard with real-time metrics, customizable widgets, and AI-powered insights for analysis."
    ["Figma"; "Power BI"; "SQL"; "React"]
    "Improved sales team productivity by 40% and reduced time spent on manual reporting by 60%.";
  Project 2 "Hospital Queue Optimization System" "Healthcare App"
    "https://images.unsplash.com/photo-1519494026892-80bbd2d6fd0d?w=800&h=400&fit=crop"
    "Patients faced long wait times and hospitals struggled with inefficient patient flow management."
    "Shadowed hospital staff for 2 weeks, surveyed 200+ patients, and analyzed peak hour patterns."
    "Created a smart queue management system with real-time wait time predictions, appointment scheduling, and SMS notifications."
    ["Figma"; "UX Research"; "Wireframing"; "Prototyping"]
    "Reduced average patient wait time by 35% and improved patient satisfaction scores by 50%.";
  Project 3 "E-commerce App Redesign" "Mobile Design"
    "https://images.unsplash.com/photo-1556742049-0cfed4f6a45d?w=800&h=400&fit=crop"
    "Low conversion rates and high cart abandonment due to complex navigation and outdated UI."
    "Performed heuristic evaluation, A/B testing, and user journey mapping to identify pain points."
    "Redesigned the entire app with modern UI, simplified checkout process, and personalized product recommendations."
    ["Figma"; "User Testing"; "Wireframing"; "Prototyping"]
    "Increased conversion rate by 25% and reduced cart abandonment by 40%."
].

(** ** State and handler *)

(** [expandedProject]: [useState(null)], page.js 364. *)
Definition state : Type := option nat.

Definition initial : state := None.

(** [expandedProject === project.id]. *)
Definition is_expanded (e : state) (pid : nat) : bool := object_is e (Some pid).

(** The value the button passes to [setExpandedProject], page.js 454. *)
Definition toggle (e : state) (pid : nat) : state :=
  if is_expanded e pid then None else Some pid.

(** The click on the button of card [pid], as the update it enqueues. *)
Definition onToggle (e : state) (pid : nat) : list (update (St := state)) :=
  [fun _ => toggle e pid].

(** Deliver a click: the component has no effect. *)
Definition click (e : state) (pid : nat) (b : browser) : Hooks.outcome state nat :=
  settle (D := nat) render_limit [] (Fiber e []) (onToggle e pid) b.

(** ** View *)

(** The body of a card: the case study or the two-line summary. *)
Inductive body :=
  | CaseStudy (problem research solution : string) (tools : list string) (outcome : string)
  | Summary (problem : string).

Record card := Card {
  card_key : nat; card_title : string; card_category : string;
  card_image : string; card_body : body;
  button_label : string; chevron_class : string
}.

(** One card, page.js 384-464. *)
Definition render_card (e : state) (p : project) : card := {|
  card_key := id p;
  card_title := title p;
  card_category := category p;
  card_image := image p;
  card_body := if is_expanded e (id p)
               then CaseStudy (problem p) (research p) (solution p) (tools p) (outcome p)
               else Summary (problem p);
  button_label := if is_expanded e (id p) then "Show Less" else "View Case Study";
  chevron_class := "transition-transform " ++ (if is_expanded e (id p) then "rotate-180" else "")
|}.

(** [projects.map(...)], page.js 383. *)
Definition render (e : state) : list card := render_card e <$> projects.

Definition shows_case_study (c : card) : bool :=
  match card_body c with CaseStudy _ _ _ _ _ => true | Summary _ => false end.

(** ** Reachable selections *)

(** The selections a session can reach: clicks on rendered cards. *)
Inductive reachable : state -> Prop :=
  | reach_init : reachable initial
  | reach_click e p : reachable e -> p ∈ projects -> reachable (toggle e (id p)).

(** ** Lemmas *)

Lemma is_expanded_spec e pid : is_expanded e pid = true <-> e = Some pid.
Proof. unfold is_expanded. apply (object_is_spec (A := option nat)). Qed.

Lemma toggle_spec e pid : toggle e pid = if decide (e = Some pid) then None else Some pid.
Proof.
  unfold toggle. destruct (is_expanded e pid) eqn:H; case_decide as Hd; try done.
  - by apply is_expanded_spec in H.
  - by apply is_expanded_spec in Hd; rewrite Hd in H.
Qed.

Lemma shows_render_card e p : shows_case_study (render_card e p) = is_expanded e (id p).
Proof. unfold shows_case_study, render_card; cbn. by destruct (is_expanded e (id p)). Qed.

(** The ids of the listed projects are distinct (React uses them as keys). *)
Lemma projects_ids_NoDup : NoDup (id <$> projects).
Proof. vm_compute. repeat constructor; set_solver. Qed.

Lemma click_eq e pid b : click e pid b = Settled (Fiber (toggle e pid) []) b.
Proof. unfold click, render_limit. apply settle_stateless. Qed.

(** ** Theorems *)

(** C20: a click on card [a] and then, after the re-render, on another
    card [b] leaves exactly card [b] showing its case study, whatever was
    expanded before; the browser is untouched. *)
Theorem expand_then_other e a b br :
  a <> b ->
  click e a br = Settled (Fiber (toggle e a) []) br /\
  click (toggle e a) b br = Settled (Fiber (Some b) []) br /\
  (forall p, shows_case_study (render_card (Some b) p) = true <-> id p = b).
Proof.
  intros Hab. rewrite !click_eq. split; [done|]. split.
  - f_equal. f_equal. rewrite !toggle_spec.
    repeat case_decide; congruence.
  - intros p. rewrite shows_render_card, is_expanded_spec. naive_solver.
Qed.

(** C21: a click on a card that is not expanded and a second click on the
    same card leave no card expanded. *)
Theorem expand_then_collapse e a br :
  e <> Some a ->
  click e a br = Settled (Fiber (Some a) []) br /\
  click (Some a) a br = Settled (Fiber None []) br.
Proof.
  intros Ha. rewrite !click_eq, !toggle_spec.
  case_decide; [done|]. case_decide; [done|congruence].
Qed.

(** C22: two cards that both show their case study are the same card:
    whatever the cell holds, the cards are mutually exclusive, because the
    project ids are distinct. *)
Theorem case_study_exclusive e i j ci cj :
  render e !! i = Some ci -> render e !! j = Some cj ->
  shows_case_study ci = true -> shows_case_study cj = true -> i = j.
Proof.
  unfold render. rewrite !list_lookup_fmap.
  destruct (projects !! i) as [pi|] eqn:Hi, (projects !! j) as [pj|] eqn:Hj;
    intros [= <-] [= <-]; rewrite !shows_render_card, !is_expanded_spec.
  intros Hpi Hpj. rewrite Hpi in Hpj. injection Hpj as Hid.
  eapply NoDup_lookup; [apply projects_ids_NoDup | |].
  - by rewrite list_lookup_fmap, Hi.
  - by rewrite list_lookup_fmap, Hj, Hid.
Qed.

(** C23: every selection a session reaches is [null] or the id of a listed
    project, so exactly one card shows its case study when the cell is set
    and none when it is [null]. *)
Theorem reachable_case_studies e :
  reachable e ->
  length (filter (fun c => shows_case_study c = true) (render e)) =
    match e with Some _ => 1 | None => 0 end.
Proof.
  induction 1 as [|e p _ _ Hp].
  - reflexivity.
  - rewrite toggle_spec. case_decide; [reflexivity|].
    apply list_elem_of_lookup in Hp as [i Hi].
    revert i Hi. vm_compute. intros [|[|[|i]]] Hi; try discriminate; injection Hi as <-;
      reflexivity.
Qed.

(** ** Witnesses *)

Definition blank_browser : browser := Browser true ∅ ∅ ∅ 0 [] [] 0 0.

Lemma expand_then_other_witness :
  click None 1 blank_browser = Settled (Fiber (Some 1) []) blank_browser /\
  click (Some 1) 2 blank_browser = Settled (Fiber (Some 2) []) blank_browser /\
  (forall p, shows_case_study (render_card (Some 2) p) = true <-> id p = 2).
Proof. apply (expand_then_other None 1 2 blank_browser). discriminate. Defined.

Lemma expand_then_collapse_witness :
  click None 3 blank_browser = Settled (Fiber (Some 3) []) blank_browser /\
  click (Some 3) 3 blank_browser = Settled (Fiber None []) blank_browser.
Proof. apply (expand_then_collapse None 3 blank_browser). discriminate. Defined.

Lemma case_study_exclusive_witness :
  exists c, render (Some 2) !! 1 = Some c /\ shows_case_study c = true /\ 1 = 1.
Proof.
  eexists. split; [reflexivity|]. split; [reflexivity|].
  eapply (case_study_exclusive (Some 2) 1 1); reflexivity.
Defined.

Lemma reachable_case_studies_witness :
  length (filter (fun c => shows_case_study c = true) (render (Some 2))) = 1.
Proof.
  apply (reachable_case_studies (Some 2)).
  apply (reach_click initial (Project 2 "Hospital Queue Optimization System" "Healthcare App"
    "https://images.unsplash.com/photo-1519494026892-80bbd2d6fd0d?w=800&h=400&fit=crop"
    "Patients faced long wait times and hospitals struggled with inefficient patient flow management."
    "Shadowed hospital staff for 2 weeks, surveyed 200+ patients, and analyzed peak hour patterns."
    "Created a smart queue management system with real-time wait time predictions, appointment scheduling, and SMS notifications."
    ["Figma"; "UX Research"; "Wireframing"; "Prototyping"]
    "Reduced average patient wait time by 35% and improved patient satisfaction scores by 50%.")).
  - constructor.
  - apply list_elem_of_lookup. exists 1. reflexivity.
Defined.

End Projects.
