(* ===== verification/Contact.v ===== *)
(** * The [Contact] component (page.js 559-722)

    Two state cells: [formData] (three strings) and [submitted].  While
    [submitted] is false the form is rendered: each field's [onChange]
    replaces one field of the rendered [formData]; the browser's
    constraint validation ([required] on the three fields, [type="email"]
    on the second) guards the submit event; [handleSubmit] sets
    [submitted], schedules [setTimeout(() => setSubmitted(false), 3000)]
    and clears the draft.  While [submitted] is true the success message
    replaces the form.  The component has no effect; the timer callback
    enqueues its update when the browser runs it.

    The session is a step relation on the fiber and the browser: field
    changes, submits, time passing (never past a due timer) and timers
    firing.  Its invariant ties [submitted] to the one pending timer; the
    theorems give the spec's submit-and-reset behaviour, the 3000 ms
    during which the success message stays, and that it can always be
    hidden (from every session some run shows the form again; the model
    does not force the browser to run the timer, so not every run does).  [ContactSpec] relates the session to the spec's machine. *)

From S2P Require Import Prelude Browser Hooks.

Module Contact.

(** ** State *)

Record formData := FormData { name : string; email : string; message : string }.

#[export] Instance formData_eq_dec : EqDecision formData.
Proof. solve_decision. Defined.

Record state := State { form : formData; submitted : bool }.

#[export] Instance state_eq_dec : EqDecision state.
Proof. solve_decision. Defined.

(** React compares each cell with [Object.is]; [formData] is compared here
    by contents: the component has no effect, so a render with equal
    contents is not observable. *)
#[export] Instance state_object_is : ObjectIs state :=
  fun s t => bool_decide (s = t).

#[export] Instance state_object_is_spec : ObjectIsSpec state.
Proof. intros s t. apply bool_decide_eq_true. Qed.

(** [{ name: '', email: '', message: '' }], page.js 560 and 568. *)
Definition empty_form : formData := FormData "" "" "".

(** [useState(...)], page.js 560-561. *)
Definition initial : state := State empty_form false.

Definition setFormData (f : formData) : update (St := state) :=
  fun s => State f (submitted s).
Definition setSubmitted (v : bool) : update (St := state) :=
  fun s => State (form s) v.

(** ** Handlers *)

Inductive field := Name | Email | Message.

#[export] Instance field_eq_dec : EqDecision field.
Proof. solve_decision. Defined.

(** [setFormData({ ...formData, <field>: e.target.value })], page.js 625,
    637 and 649, on the rendered [formData]. *)
Definition onChange (s : state) (f : field) (v : string) : list (update (St := state)) :=
  let d := form s in
  [setFormData (match f with
                | Name => FormData v (email d) (message d)
                | Email => FormData (name d) v (message d)
                | Message => FormData (name d) (email d) v
                end)].

(** The delay of the reset timer, page.js 567. *)
Definition reset_delay : Z := 3000.

(** [handleSubmit], page.js 563-569: the browser after [setTimeout] and
    the updates enqueued, in the order the code calls the setters. *)
Definition handleSubmit (s : state) (b : browser) : browser * list (update (St := state)) :=
  let '(_, b') := setTimeout b ResetSubmitted reset_delay in
  (b', [setSubmitted true; setFormData empty_form]).

(** The timer callback [() => setSubmitted(false)]. *)
Definition timer_updates (cb : timer_cb) : list (update (St := state)) :=
  match cb with
  | ResetSubmitted => [setSubmitted false]
  end.

Definition deliver (s : state) (q : list (update (St := state))) (b : browser)
    : outcome state nat :=
  settle render_limit [] (Fiber s []) q b.

(** ** Constraint validation of the form (browser behaviour) *)

Definition ascii_in (c : ascii) (cs : string) : bool :=
  existsb (Ascii.eqb c) (list_ascii_of_string cs).

Definition is_alnum (c : ascii) : bool :=
  let n := Ascii.nat_of_ascii c in
  (Nat.leb 48 n && Nat.leb n 57) || (Nat.leb 65 n && Nat.leb n 90) ||
  (Nat.leb 97 n && Nat.leb n 122).

(** The characters of the local part of a valid e-mail address (HTML). *)
Definition is_local_char (c : ascii) : bool :=
  is_alnum c || ascii_in c ".!#$%&'*+/=?^_`{|}~-".

(** A domain label: 1 to 63 letters, digits or hyphens, starting and
    ending with a letter or digit. *)
Definition valid_label (l : list ascii) : bool :=
  match l with
  | [] => false
  | c :: _ =>
      Nat.leb (length l) 63 && is_alnum c && is_alnum (List.last l c) &&
      forallb (fun x => is_alnum x || Ascii.eqb x "-") l
  end.

(** Split at every occurrence of [sep]. *)
Fixpoint split_on (sep : ascii) (l : list ascii) : list (list ascii) :=
  match l with
  | [] => [[]]
  | c :: l' =>
      if Ascii.eqb c sep then [] :: split_on sep l'
      else match split_on sep l' with
           | w :: ws => (c :: w) :: ws
           | [] => [[c]]
           end
  end.

(** HTML's valid e-mail address: a non-empty local part, one [@], and
    labels separated by dots. *)
Definition valid_email (v : string) : bool :=
  match split_on "@"%char (list_ascii_of_string v) with
  | [local; domain] =>
      negb (bool_decide (local = [])) && forallb is_local_char local &&
      forallb valid_label (split_on "."%char domain)
  | _ => false
  end.

Definition is_ascii_ws (c : ascii) : bool := ascii_in c (String (Ascii.ascii_of_nat 32)
  (String (Ascii.ascii_of_nat 9) (String (Ascii.ascii_of_nat 10)
  (String (Ascii.ascii_of_nat 12) (String (Ascii.ascii_of_nat 13) EmptyString))))).

(** The value sanitization of [type="email"]: strip newlines, then
    leading and trailing ASCII whitespace. *)
Definition sanitize_email (v : string) : string :=
  let l := filter (fun c => negb (ascii_in c (String (Ascii.ascii_of_nat 10)
                    (String (Ascii.ascii_of_nat 13) EmptyString)))) (list_ascii_of_string v) in
  let strip := fix go (l : list ascii) := match l with
                 | c :: l' => if is_ascii_ws c then go l' else l
                 | [] => [] end in
  string_of_list_ascii (rev (strip (rev (strip l)))).

(** The form's [required] fields and its e-mail field, page.js 621-652:
    the submit event only fires when this holds. *)
Definition form_valid (d : formData) : bool :=
  negb (String.eqb (name d) "") &&
  negb (String.eqb (sanitize_email (email d)) "") && valid_email (sanitize_email (email d)) &&
  negb (String.eqb (message d) "").

(** ** The session *)

Record session := Session { fb : fiber state nat; br : browser }.

Inductive event :=
  | Change (f : field) (v : string)   (** typing in a field *)
  | Submit                            (** the form's submit event *)
  | Elapse (dt : Z)                   (** time passes *)
  | Fire.                             (** the event loop runs a due timer *)

(** One step of the session.  Changes and submits need the form to be
    rendered ([submitted] false); a submit also needs the form to pass
    constraint validation. *)
Inductive step : session -> event -> session -> Prop :=
  | step_change s b f v fb' b' :
      submitted s = false ->
      deliver s (onChange s f v) b = Settled fb' b' ->
      step (Session (Fiber s []) b) (Change f v) (Session fb' b')
  | step_submit s b b1 q fb' b' :
      submitted s = false -> form_valid (form s) = true ->
      handleSubmit s b = (b1, q) ->
      deliver s q b1 = Settled fb' b' ->
      step (Session (Fiber s []) b) Submit (Session fb' b')
  | step_elapse fb b dt :
      can_elapse b dt ->
      step (Session fb b) (Elapse dt) (Session fb (with_now b (now b + dt)))
  | step_fire s b t fb' b' :
      earliest (timers b) = Some t -> (tm_due t <= now b)%Z ->
      deliver s (timer_updates (tm_cb t)) (drop_timer b (tm_id t)) = Settled fb' b' ->
      step (Session (Fiber s []) b) Fire (Session fb' b').

(** Sessions reachable from a browser with no pending timer. *)
Inductive reachable : session -> Prop :=
  | reach_init b : timers b = [] -> reachable (Session (Fiber initial []) b)
  | reach_step c ev c' : reachable c -> step c ev c' -> reachable c'.

(** The value of one field of the draft. *)
Definition field_value (d : formData) (f : field) : string :=
  match f with Name => name d | Email => email d | Message => message d end.

(** A filled-in draft and a browser with no pending timer, for the
    examples. *)
Definition demo_state : state := State (FormData "Ada" " ada@example.com " "Hello") false.
Definition demo_browser : browser := Browser true ∅ ∅ ∅ 0 [] [] 0 0.

(** The invariant of a session: the fiber has no effect slot; without the
    success message there is no pending timer; with it, the draft is
    empty and exactly one reset timer is pending, due within 3000 ms. *)
Definition contact_inv (c : session) : Prop :=
  fb_slots (fb c) = [] /\
  if submitted (fb_state (fb c))
  then form (fb_state (fb c)) = empty_form /\
       exists i due, timers (br c) = [Timer i due ResetSubmitted] /\
                     (now (br c) <= due <= now (br c) + reset_delay)%Z
  else timers (br c) = [].

(** After a submit at time [t]: the success message is shown with the
    reset timer due at [t + 3000], or the clock has reached [t + 3000]. *)
Definition shown_since (t : Z) (c : session) : Prop :=
  (submitted (fb_state (fb c)) = true /\ fb_slots (fb c) = [] /\
   exists i, timers (br c) = [Timer i (t + reset_delay) ResetSubmitted]) \/
  (t + reset_delay <= now (br c))%Z.

(** ** Lemmas *)

Lemma deliver_eq s q b : deliver s q b = Settled (Fiber (apply_all q s) []) b.
Proof. unfold deliver, render_limit. apply settle_stateless. Qed.

Lemma handleSubmit_eq s b :
  handleSubmit s b =
    (with_timers b (timers b ++ [Timer (next_timer_id b) (now b + reset_delay) ResetSubmitted])
       (S (next_timer_id b)),
     [setSubmitted true; setFormData empty_form]).
Proof. reflexivity. Qed.

Lemma earliest_single t : earliest [t] = Some t.
Proof. reflexivity. Qed.

Lemma drop_single_timer b t :
  timers b = [t] -> timers (drop_timer b (tm_id t)) = [].
Proof. intros Ht. cbn. rewrite Ht. cbn. by case_decide. Qed.

(** Time can pass up to the due time of the one pending timer. *)
Lemma step_elapse_to_due f b t :
  timers b = [t] -> (now b <= tm_due t)%Z ->
  step (Session f b) (Elapse (tm_due t - now b)) (Session f (with_now b (tm_due t))).
Proof.
  intros Ht Hle. replace (tm_due t) with (now b + (tm_due t - now b))%Z at 2 by lia.
  apply step_elapse. split; [lia|]. rewrite Ht. repeat constructor. lia.
Qed.

(** The one pending reset timer, once due, fires and hides the message. *)
Lemma step_fire_reset s b i due :
  timers b = [Timer i due ResetSubmitted] -> (due <= now b)%Z ->
  step (Session (Fiber s []) b) Fire (Session (Fiber (setSubmitted false s) []) (drop_timer b i)) /\
  timers (drop_timer b i) = [].
Proof.
  intros Ht Hle. split; [eapply step_fire|].
  - by rewrite Ht.
  - exact Hle.
  - apply deliver_eq.
  - by apply (drop_single_timer b (Timer i due ResetSubmitted)).
Qed.

(** Inversion of a step from a session whose fiber has no slot. *)
Lemma step_cases s b ev c' :
  step (Session (Fiber s []) b) ev c' ->
  (exists f v, ev = Change f v /\ submitted s = false /\
     c' = Session (Fiber (apply_all (onChange s f v) s) []) b) \/
  (ev = Submit /\ submitted s = false /\ form_valid (form s) = true /\
     c' = Session (Fiber (State empty_form true) [])
            (fst (handleSubmit s b))) \/
  (exists dt, ev = Elapse dt /\ can_elapse b dt /\
     c' = Session (Fiber s []) (with_now b (now b + dt))) \/
  (exists t, ev = Fire /\ earliest (timers b) = Some t /\ (tm_due t <= now b)%Z /\
     c' = Session (Fiber (apply_all (timer_updates (tm_cb t)) s) []) (drop_timer b (tm_id t))).
Proof.
  inversion 1; subst.
  - left. rewrite deliver_eq in *. simplify_eq. eauto.
  - right; left. rewrite handleSubmit_eq in *. simplify_eq.
    rewrite deliver_eq in *. simplify_eq. done.
  - right; right; left. eauto.
  - right; right; right. rewrite deliver_eq in *. simplify_eq. eauto.
Qed.

(** A step of the session only touches the timers and the clock. *)
Lemma step_frame f b ev f' b' :
  step (Session f b) ev (Session f' b') ->
  ls_enabled b' = ls_enabled b /\ ls_items b' = ls_items b /\
  html_classes b' = html_classes b /\ listeners b' = listeners b.
Proof.
  inversion 1; subst;
    repeat match goal with H : deliver _ _ _ = _ |- _ => rewrite deliver_eq in H end;
    try (rewrite handleSubmit_eq in *); simplify_eq; done.
Qed.

(** The invariant only reads the timers and the clock. *)
Lemma inv_frame f b b' :
  timers b' = timers b -> now b' = now b ->
  contact_inv (Session f b) -> contact_inv (Session f b').
Proof. unfold contact_inv; cbn. intros -> ->. done. Qed.

(** Every step keeps the invariant. *)
Lemma step_preserves_inv c ev c' : contact_inv c -> step c ev c' -> contact_inv c'.
Proof.
  destruct c as [[s sl] b]. intros [Hsl Hinv] Hstep. cbn in Hsl, Hinv. subst sl.
  apply step_cases in Hstep as
    [(f & v & -> & Hs & ->) | [(-> & Hs & _ & ->) | [(dt & -> & [Hdt Hall] & ->) |
      (t & -> & Ht & Hdue & ->)]]]; cbn.
  - rewrite Hs in Hinv. split; [done|]. by destruct f; cbn; rewrite Hs.
  - rewrite Hs in Hinv. split; [done|]. split; [done|].
    cbn. rewrite Hinv. do 2 eexists.
    split; [reflexivity|]. unfold reset_delay. lia.
  - split; [done|]. cbn. destruct (submitted s); [|done].
    destruct Hinv as (Hf & i & due & Hts & Hb). split; [done|].
    exists i, due. rewrite Hts in Hall |- *. inversion Hall. split; [done|].
    cbn in *. unfold reset_delay in *. lia.
  - cbn in *. destruct (submitted s); [|by rewrite Hinv in Ht].
    destruct Hinv as (Hf & i & due & Hts & _). rewrite Hts in Ht.
    injection Ht as <-. split; [done|]. cbn. rewrite Hts. cbn. by case_decide.
Qed.

Lemma step_now_mono c ev c' : step c ev c' -> (now (br c) <= now (br c'))%Z.
Proof.
  inversion 1; subst; cbn;
    repeat match goal with H : deliver _ _ _ = _ |- _ => rewrite deliver_eq in H end;
    simplify_eq; cbn; try lia.
  - rewrite handleSubmit_eq in *. simplify_eq. cbn. lia.
  - match goal with H : can_elapse _ _ |- _ => destruct H end. lia.
Qed.

Lemma step_preserves_shown t c ev c' : shown_since t c -> step c ev c' -> shown_since t c'.
Proof.
  intros [(Hs & Hsl & i & Hts) | Hnow] Hstep.
  - destruct c as [[st sl] b]. cbn in *. subst sl.
    apply step_cases in Hstep as
      [(? & ? & _ & Hf & _) | [(_ & Hf & _) | [(dt & _ & [Hdt Hall] & ->) |
        (tm & _ & Ht & Hdue & ->)]]];
      try congruence.
    + left. cbn. eauto.
    + right. rewrite Hts in Ht. injection Ht as <-. cbn in *. lia.
  - right. apply step_now_mono in Hstep. lia.
Qed.

(** The run that hides the success message: time passes up to the
    timer's due time, then the timer fires. *)
Lemma hide_message_run c :
  contact_inv c ->
  exists c', star step c c' /\ submitted (fb_state (fb c')) = false /\
    timers (br c') = [] /\ (now (br c') <= now (br c) + reset_delay)%Z /\
    form (fb_state (fb c')) = form (fb_state (fb c)).
Proof.
  destruct c as [[s sl] b]. intros [Hsl Hinv]. cbn in *. subst sl.
  destruct (submitted s) eqn:Hs.
  - destruct Hinv as (_ & i & due & Ht & Hlo & Hhi).
    destruct (step_fire_reset s (with_now b due) i due) as [Hf Hd]; [done|cbn; lia|].
    eexists. split.
    + eapply star_step; [apply (step_elapse_to_due _ _ (Timer i due ResetSubmitted)); [exact Ht|exact Hlo]|].
      eapply star_step; [exact Hf|apply star_refl].
    + cbn. split; [done|]. split; [exact Hd|]. split; [lia|done].
  - exists (Session (Fiber s []) b). split; [apply star_refl|]. cbn. split; [done|].
    split; [exact Hinv|]. split; [unfold reset_delay; lia|done].
Qed.

(** ** Theorems *)

(** C13: submitting a valid form with no pending timer shows the success
    message with an empty draft and schedules the reset; after 3000 ms the
    timer may run, and it hides the message with no timer left. *)
Theorem submit_then_reset s b :
  submitted s = false -> form_valid (form s) = true -> timers b = [] ->
  let b1 := fst (handleSubmit s b) in
  let c1 := Session (Fiber (State empty_form true) []) b1 in
  let c2 := Session (Fiber (State empty_form true) []) (with_now b1 (now b1 + reset_delay)) in
  step (Session (Fiber s []) b) Submit c1 /\
  step c1 (Elapse reset_delay) c2 /\
  exists b3, step c2 Fire (Session (Fiber (State empty_form false) []) b3) /\
             timers b3 = [] /\ now b3 = (now b + reset_delay)%Z.
Proof.
  intros Hs Hv Ht. cbv zeta. rewrite handleSubmit_eq. cbn [fst].
  split; [|split].
  - eapply step_submit; [done|done|apply handleSubmit_eq|apply deliver_eq].
  - apply step_elapse. split; [unfold reset_delay; lia|]. cbn. rewrite Ht. cbn.
    constructor; [cbn; lia|constructor].
  - edestruct (step_fire_reset (State empty_form true)) as [Hf Hd]; [| |].
    3: { eexists. split; [exact Hf|]. split; [exact Hd|done]. }
    + cbn. by rewrite Ht.
    + cbn. lia.
Qed.

(** C15: in every reachable session, the success message is shown exactly
    when one reset timer is pending, due within 3000 ms, and the draft is
    then empty; otherwise no timer is pending. *)
Theorem reachable_inv c : reachable c -> contact_inv c.
Proof.
  induction 1 as [b Hb|c ev c' _ IH Hstep].
  - split; [done|]. cbn. exact Hb.
  - by eapply step_preserves_inv.
Qed.

(** C14: after a submit, the success message stays for the whole delay:
    from a session satisfying the invariant, a [Submit] step at time [t]
    followed by any run (typing, time passing, timers firing) can only
    reach a session without the message at time [t + 3000] or later. *)
Theorem message_shown_full_delay c0 c1 c' :
  contact_inv c0 -> step c0 Submit c1 -> star step c1 c' ->
  submitted (fb_state (fb c')) = false ->
  (now (br c0) + reset_delay <= now (br c'))%Z.
Proof.
  destruct c0 as [[s sl] b]. intros [Hsl Hinv] Hsub Hrun Hoff. cbn in Hsl, Hinv |- *. subst sl.
  apply step_cases in Hsub as
    [(? & ? & ? & _) | [(_ & Hs & _ & ->) | [(? & ? & _) | (? & ? & _)]]]; try discriminate.
  rewrite Hs in Hinv.
  assert (Hsh : shown_since (now b) c').
  { eapply star_invariant; [apply step_preserves_shown | exact Hrun |].
    left. rewrite handleSubmit_eq. cbn. rewrite Hinv. eauto. }
  destruct Hsh as [[Hon _] | Hnow]; [congruence | exact Hnow].
Qed.

(** C27: typing in a field replaces that field of the rendered draft and
    keeps the two others ([{ ...formData, field: value }]). *)
Theorem change_keeps_other_fields s f v g :
  field_value (form (apply_all (onChange s f v) s)) g =
    if decide (g = f) then v else field_value (form s) g.
Proof. by destruct f, g. Qed.

(** C16: the success message can always be hidden: from every
    session satisfying the invariant there is a run (time passing up to
    the timer's due time, then the timer firing) to a session where the
    form is shown again with no timer pending, at most 3000 ms later, with
    the draft as it was. *)
Theorem message_eventually_hidden c :
  contact_inv c ->
  exists c', star step c c' /\ submitted (fb_state (fb c')) = false /\
    timers (br c') = [] /\ (now (br c') <= now (br c) + reset_delay)%Z /\
    form (fb_state (fb c')) = form (fb_state (fb c)).
Proof. apply hide_message_run. Qed.

(** ** Witnesses *)

Lemma submit_then_reset_witness :
  let b1 := fst (handleSubmit demo_state demo_browser) in
  let c1 := Session (Fiber (State empty_form true) []) b1 in
  let c2 := Session (Fiber (State empty_form true) []) (with_now b1 (now b1 + reset_delay)) in
  step (Session (Fiber demo_state []) demo_browser) Submit c1 /\
  step c1 (Elapse reset_delay) c2 /\
  exists b3, step c2 Fire (Session (Fiber (State empty_form false) []) b3) /\
             timers b3 = [] /\ now b3 = (now demo_browser + reset_delay)%Z.
Proof. apply submit_then_reset; vm_compute; reflexivity. Defined.

Lemma reachable_inv_witness :
  contact_inv (Session (Fiber initial []) demo_browser).
Proof. apply reachable_inv. apply reach_init. reflexivity. Defined.

Lemma message_shown_full_delay_witness :
  let b1 := fst (handleSubmit demo_state demo_browser) in
  let b2 := with_now b1 (now b1 + reset_delay) in
  let c1 := Session (Fiber (State empty_form true) []) b1 in
  let c3 := Session (Fiber (State empty_form false) []) (drop_timer b2 0) in
  (now demo_browser + reset_delay <= now (br c3))%Z.
Proof.
  intros b1 b2 c1 c3.
  assert (Hrun : star step c1 c3).
  { eapply star_step; [apply (step_elapse _ _ reset_delay)|].
    - split; [unfold reset_delay; lia|]. repeat constructor; cbn; unfold reset_delay; lia.
    - eapply star_step; [eapply step_fire|apply star_refl].
      + reflexivity.
      + cbn. unfold reset_delay. lia.
      + apply deliver_eq. }
  apply (message_shown_full_delay (Session (Fiber demo_state []) demo_browser) c1 c3).
  - split; reflexivity.
  - eapply step_submit; [reflexivity | vm_compute; reflexivity | reflexivity | apply deliver_eq].
  - exact Hrun.
  - reflexivity.
Defined.

Lemma message_eventually_hidden_witness :
  exists c', star step (Session (Fiber (State empty_form true) [])
                 (with_timers demo_browser [Timer 0 3000 ResetSubmitted] 1)) c' /\
    submitted (fb_state (fb c')) = false /\ timers (br c') = [] /\
    (now (br c') <= 0 + reset_delay)%Z /\ form (fb_state (fb c')) = empty_form.
Proof.
  apply (message_eventually_hidden (Session (Fiber (State empty_form true) [])
                 (with_timers demo_browser [Timer 0 3000 ResetSubmitted] 1))).
  split; [reflexivity|]. cbn. split; [reflexivity|]. do 2 eexists. split; [reflexivity|].
  unfold reset_delay. cbn. lia.
Defined.

End Contact.
