(* ===== verification/ContactSpec.v ===== *)
(** * The contact form against its specification

    The spec (section 4.4) describes the form as a machine with two
    phases: editing a draft of three text fields, and a thank-you phase
    entered by submitting a draft with all three fields populated, which
    clears the draft and ends 3 seconds later.  [ContactSpec] states that
    machine over an abstract state (the phase and the clock), maps every
    session of the [Contact] model to it, and proves that every step of a
    session satisfying [Contact.contact_inv] is a step of the spec on the
    abstract states: the code refines the spec.  The converse fails: the
    browser's constraint validation of the [email] field refuses some
    populated drafts that the spec lets the user submit. *)

From S2P Require Import Prelude Browser Hooks Contact.

Module ContactSpec.

Import Contact.

(** ** The specification *)

Inductive phase :=
  | Editing (d : formData)        (** the form is shown with draft [d] *)
  | ThankYou (reset_at : Z).      (** the success message, until [reset_at] *)

Record astate := AState { aphase : phase; clock : Z }.

(** All three fields hold some text. *)
Definition populated (d : formData) : Prop :=
  name d <> "" /\ email d <> "" /\ message d <> "".

(** Typing [v] into field [f]. *)
Definition spec_update (d : formData) (f : field) (v : string) : formData :=
  match f with
  | Name => FormData v (email d) (message d)
  | Email => FormData (name d) v (message d)
  | Message => FormData (name d) (email d) v
  end.

(** The spec's machine, with the events of the [Contact] model. *)
Inductive astep : astate -> event -> astate -> Prop :=
  | a_type d t f v :
      astep (AState (Editing d) t) (Change f v) (AState (Editing (spec_update d f v)) t)
  | a_submit d t :
      populated d ->
      astep (AState (Editing d) t) Submit (AState (ThankYou (t + reset_delay)) t)
  | a_wait p t dt :
      (0 <= dt)%Z -> (forall r, p = ThankYou r -> (t + dt <= r)%Z) ->
      astep (AState p t) (Elapse dt) (AState p (t + dt))
  | a_reset r t :
      (r <= t)%Z -> astep (AState (ThankYou r) t) Fire (AState (Editing empty_form) t).

(** ** The abstraction of a session *)

(** The due time of the pending timer, when there is one. *)
Definition pending_due (b : browser) : Z :=
  match timers b with [t] => tm_due t | _ => 0%Z end.

Definition abs (c : session) : astate :=
  AState (if submitted (fb_state (fb c)) then ThankYou (pending_due (br c))
          else Editing (form (fb_state (fb c))))
         (now (br c)).

(** ** Lemmas *)

Lemma sanitize_email_empty : sanitize_email "" = "".
Proof. reflexivity. Qed.

(** A draft that passes constraint validation is populated. *)
Lemma form_valid_populated d : form_valid d = true -> populated d.
Proof.
  unfold form_valid. intros H. apply andb_prop in H as [H Hm].
  apply andb_prop in H as [H _]. apply andb_prop in H as [Hn He].
  apply negb_true_iff, String.eqb_neq in Hn, He, Hm.
  split; [exact Hn|split; [|exact Hm]].
  intros Hd. apply He. by rewrite Hd.
Qed.

Lemma onChange_spec s f v :
  apply_all (onChange s f v) s = State (spec_update (form s) f v) (submitted s).
Proof. by destruct f. Qed.

Lemma pending_due_with_now b t : pending_due (with_now b t) = pending_due b.
Proof. reflexivity. Qed.

Lemma abs_editing s b :
  submitted s = false -> abs (Session (Fiber s []) b) = AState (Editing (form s)) (now b).
Proof. intros Hs. unfold abs. cbn. by rewrite Hs. Qed.

(** ** Theorems *)

(** C10: the code refines the spec: every step of a session satisfying
    the invariant (typing, submitting, time passing, the timer firing) is
    a step of the spec's machine between the abstractions of the two
    sessions. *)
Theorem session_refines_spec c ev c' :
  contact_inv c -> step c ev c' -> astep (abs c) ev (abs c').
Proof.
  destruct c as [[s sl] b]. intros [Hsl Hinv] Hstep. cbn in Hsl, Hinv. subst sl.
  apply step_cases in Hstep as
    [(f & v & -> & Hs & ->) | [(-> & Hs & Hv & ->) | [(dt & -> & [Hdt Hall] & ->) |
      (t & -> & Ht & Hdue & ->)]]].
  - rewrite abs_editing by done. unfold abs. rewrite onChange_spec. cbn. rewrite Hs.
    apply a_type.
  - rewrite abs_editing by done. rewrite Hs in Hinv.
    rewrite handleSubmit_eq. unfold abs, pending_due. cbn. rewrite Hinv. cbn.
    by apply a_submit, form_valid_populated.
  - unfold abs. cbn [fb br fb_state]. rewrite pending_due_with_now. apply a_wait; [exact Hdt|]. intros r.
    destruct (submitted s); [|done]. destruct Hinv as (_ & i & due & Hts & _).
    unfold pending_due. rewrite Hts. intros [= <-].
    rewrite Hts in Hall. by inversion Hall.
  - destruct (submitted s) eqn:Hs; [|by rewrite Hinv in Ht].
    destruct Hinv as (Hf & i & due & Hts & _). rewrite Hts in Ht. injection Ht as <-.
    unfold abs. cbn. rewrite Hs, Hf. unfold pending_due. rewrite Hts. cbn.
    by apply a_reset.
Qed.

(** C11: the spec lets a populated draft be submitted, but the code does
    not always: the [email] input's constraint validation refuses a
    populated draft whose e-mail is not a valid address, so no submit step
    exists from it, while the spec's machine takes one. *)
Theorem populated_submit_refused :
  let d := FormData "Ada" "ada" "Hello" in
  populated d /\
  (forall t, exists a', astep (AState (Editing d) t) Submit a') /\
  (forall b c', ~ step (Session (Fiber (State d false) []) b) Submit c').
Proof.
  cbv zeta. split; [repeat split; discriminate|]. split.
  - intros t. eexists. apply a_submit. repeat split; discriminate.
  - intros b c' Hstep. apply step_cases in Hstep as
      [(? & ? & ? & _) | [(_ & _ & Hv & _) | [(? & ? & _) | (? & ? & _)]]];
      [discriminate | vm_compute in Hv; discriminate | discriminate ..].
Qed.

(** ** Witnesses *)

Lemma session_refines_spec_witness :
  astep (abs (Session (Fiber demo_state []) demo_browser)) Submit
        (abs (Session (Fiber (State empty_form true) [])
                (fst (handleSubmit demo_state demo_browser)))).
Proof.
  apply (session_refines_spec (Session (Fiber demo_state []) demo_browser)).
  - split; reflexivity.
  - eapply step_submit; [reflexivity | vm_compute; reflexivity | reflexivity | apply deliver_eq].
Defined.

End ContactSpec.
