(* ===== verification/ContactView.v ===== *)
(** * What the contact form renders (page.js 605-662)

    The card of the contact section shows the success message while
    [submitted] is true and the form otherwise.  The form's three inputs
    are controlled: each shows the field of [formData] as its [value] and
    writes the typed text back with [setFormData({ ...formData, f: v })].
    Each field is a lens on the component's state ([field_lens]), and the
    theorem gives the round trips of the rendered inputs: what was typed
    is what the next render shows, retyping the shown text changes
    nothing, and of two edits the last wins. *)

From S2P Require Import Prelude Browser Hooks Contact.

Module ContactView.

Import Contact.

(** ** The view *)

(** An input or textarea with its label, [type], [required], [value] and
    [placeholder]. *)
Record input := Input {
  in_label : string; in_type : string; in_required : bool;
  in_value : string; in_placeholder : string
}.

Inductive view :=
  | SuccessMessage (title detail : string)
  | Form (inputs : list (field * input)) (button : string).

(** The three fields, page.js 619-652 ([textarea] for the message). *)
Definition input_of (d : formData) (f : field) : input :=
  match f with
  | Name => Input "Name" "text" true (name d) "Your name"
  | Email => Input "Email" "email" true (email d) "your@email.com"
  | Message => Input "Message" "textarea" true (message d) "Your message..."
  end.

(** [{submitted ? (...) : (<form ...>)}], page.js 607-662. *)
Definition render (s : state) : view :=
  if submitted s
  then SuccessMessage "Message Sent Successfully!" "I'll get back to you soon."
  else Form [(Name, input_of (form s) Name); (Email, input_of (form s) Email);
             (Message, input_of (form s) Message)] "Send Message".

(** The [value] the rendered input of field [f] shows, if the form is
    rendered. *)
Definition rendered_value (v : view) (f : field) : option string :=
  match v with
  | Form ins _ =>
      match list_find (fun p => fst p = f) ins with
      | Some (_, (_, i)) => Some (in_value i)
      | None => None
      end
  | SuccessMessage _ _ => None
  end.

(** A field as a lens on the state: read it, or type into it. *)
#[export] Instance field_lens (f : field) : Lens state string := {|
  lens_get s := field_value (form s) f;
  lens_set v s := apply_all (onChange s f v) s
|}.

(** ** Lemmas *)

#[export] Instance field_lens_laws (f : field) : LensLaws state string (Lens0 := field_lens f).
Proof. split; intros; destruct f; cbn; try done; by destruct s as [[] ?]. Qed.

Lemma render_editing s f :
  submitted s = false -> rendered_value (render s) f = Some (field_value (form s) f).
Proof. intros Hs. unfold render. rewrite Hs. by destruct f. Qed.

Lemma onChange_submitted s f v : submitted (apply_all (onChange s f v) s) = submitted s.
Proof. by destruct f. Qed.

(** ** Theorems *)

(** C31: the form's inputs are controlled by [formData]: while the form
    is shown each input shows its field; after typing [v] into a field the
    next render shows [v] there; typing the text an input shows leaves the
    state as it is (so React bails out of the render); and of two edits of
    a field, rendered one after the other, the last wins. *)
Theorem controlled_inputs s f v w :
  submitted s = false ->
  rendered_value (render s) f = Some (field_value (form s) f) /\
  rendered_value (render (apply_all (onChange s f v) s)) f = Some v /\
  apply_all (onChange s f (field_value (form s) f)) s = s /\
  apply_all (onChange (apply_all (onChange s f v) s) f w) (apply_all (onChange s f v) s) =
    apply_all (onChange s f w) s.
Proof.
  intros Hs. split; [by apply render_editing|]. split.
  - rewrite render_editing by (by rewrite onChange_submitted).
    f_equal. exact (@lens_get_set _ _ _ (field_lens_laws f) v s).
  - split; [exact (@lens_set_get _ _ _ (field_lens_laws f) s)|].
    exact (@lens_set_set _ _ _ (field_lens_laws f) v w s).
Qed.

(** ** Witnesses *)

Lemma controlled_inputs_witness :
  rendered_value (render demo_state) Email = Some " ada@example.com " /\
  rendered_value (render (apply_all (onChange demo_state Email "ada@example.org") demo_state)) Email =
    Some "ada@example.org" /\
  apply_all (onChange demo_state Email " ada@example.com ") demo_state = demo_state /\
  apply_all (onChange (apply_all (onChange demo_state Email "ada@example.org") demo_state) Email "y")
            (apply_all (onChange demo_state Email "ada@example.org") demo_state) =
    apply_all (onChange demo_state Email "y") demo_state.
Proof. apply (controlled_inputs demo_state Email "ada@example.org" "y"); reflexivity. Defined.

End ContactView.
