(* ===== verification/Content.v ===== *)
(** * Static content: About, Skills, the social links, Hero and Footer

    The data the page renders without state (page.js 110-324, 473-556,
    571-575, 725-783) and the two computations made on it: the text shown
    under a social link, [link.href.replace('mailto:', '').replace('https://', '')]
    (page.js 698), and the width of a skill bar, [`${skill.percentage}%`]
    (page.js 541).  [String.prototype.replace] with a string pattern is
    modelled as ECMAScript defines it, from [indexOf] and substrings.  The
    theorem: the text under a link drops a leading [mailto:] or
    [https://].  The data (skills, education, the footer's anchors and its
    copyright bytes) is used by [Motion], [Layout] and the findings. *)

From S2P Require Import Prelude Navbar Projects.
From Stdlib Require Import DecimalString.

Module Content.

(** ** [String.prototype.replace] with a string pattern *)

(** ECMAScript: the first position of [pat] in [s]; the text before it,
    the replacement, and the text after it.  The replacement strings of the
    page contain no [$], so no substitution pattern applies. *)
Definition js_replace (s pat rep : string) : string :=
  match String.index 0 pat s with
  | Some i =>
      String.substring 0 i s ++ rep ++
      String.substring (i + String.length pat) (String.length s - (i + String.length pat)) s
  | None => s
  end.

(** ** Social links (page.js 571-575) *)

Inductive social_icon := MailIcon | LinkedinIcon | GithubIcon.

Record socialLink := SocialLink {
  link_name : string; link_icon : social_icon; link_href : string; link_color : string
}.

Definition socialLinks : list socialLink := [
  SocialLink "Email" MailIcon "mailto:nihalmishra@example.com" "hover:text-red-500";
  SocialLink "LinkedIn" LinkedinIcon "https://linkedin.com/in/nihalmishra" "hover:text-blue-500";
  SocialLink "GitHub" GithubIcon "https://github.com/nihalmishra"
    "hover:text-gray-900 dark:hover:text-white"
].

(** The text under a link, page.js 698. *)
Definition display_href (href : string) : string :=
  js_replace (js_replace href "mailto:" "") "https://" "".

(** An anchor of the page that leaves it: its address, icon, [target]
    and [rel]. *)
Record anchor := Anchor {
  a_href : string; a_icon : social_icon; a_target : string; a_rel : string
}.

(** A link of the contact section as rendered, page.js 685-701. *)
Definition contact_anchor (l : socialLink) : anchor :=
  Anchor (link_href l) (link_icon l) "_blank" "noopener noreferrer".

(** ** Footer (page.js 725-783) *)

(** The footer's three social anchors, written out in the markup. *)
Definition footer_links : list anchor := [
  Anchor "mailto:nihalmishra@example.com" MailIcon "_blank" "noopener noreferrer";
  Anchor "https://linkedin.com/in/nihalmishra" LinkedinIcon "_blank" "noopener noreferrer";
  Anchor "https://github.com/nihalmishra" GithubIcon "_blank" "noopener noreferrer"
].

(** The footer's back-to-top anchor, page.js 771-772. *)
Definition back_to_top_href : string := "#".

(** ** The name and role the page shows *)

(** The Hero's badge and heading, page.js 147 and 155. *)
Definition hero_badge : string := "UI/UX Designer & MCA Student".
Definition hero_name : string := "Nihal Mishra".

(** About's greeting, page.js 255, and the footer's name, page.js 734. *)
Definition about_greeting : string := "Hello, I'm Nihal Mishra".
Definition footer_name : string := "Nihal Mishra".

(** ** The Hero's buttons (page.js 164-186) *)

Record button_link := ButtonLink { hb_label : string; hb_href : string; hb_download : bool }.

(** "View Projects" scrolls to the projects; "Download Resume" downloads
    [/resume.pdf]. *)
Definition hero_buttons : list button_link := [
  ButtonLink "View Projects" "#projects" false;
  ButtonLink "Download Resume" "/resume.pdf" true
].

(** ** The footer's view (page.js 725-782) *)

(** The copyright line, page.js 735, byte for byte: the bytes
    [C2 AC C2 A9] before the year. *)
Definition footer_copyright : string :=
  String (ascii_of_nat 194) (String (ascii_of_nat 172) (String (ascii_of_nat 194)
    (String (ascii_of_nat 169) " 2024 All rights reserved"))).

Record footer := Footer {
  f_logo : string; f_owner : string; f_copyright : string;
  f_socials : list anchor; f_top : string
}.

Definition footer_view : footer :=
  Footer "NM" footer_name footer_copyright footer_links back_to_top_href.

(** ** About (page.js 206-228) *)

Record aboutSkill := AboutSkill { skill_name : string; level : nat }.

Definition about_skills : list aboutSkill := [
  AboutSkill "Figma" 95; AboutSkill "Power BI" 85; AboutSkill "SQL" 80;
  AboutSkill "React" 75; AboutSkill "UX Research" 90; AboutSkill "Wireframing" 88
].

Record educationEntry := Education {
  year : string; degree : string; institution : string; description : string
}.

Definition education : list educationEntry := [
  Education "2023 - Present" "Master of Computer Applications (MCA)"
    "Lovely Professional University"
    "Specializing in Human-Computer Interaction and Software Development";
  Education "2020 - 2023" "Bachelor of Computer Applications (BCA)"
    "University of Calcutta"
    "Foundation in programming, database management, and web technologies"
].

(** ** Skills (page.js 474-502) *)

Record skill := Skill { name : string; percentage : nat; icon : string }.

Record skillCategory := SkillCategory { cat_title : string; cat_skills : list skill }.

(** The [icon] strings of the source are not emoji: each is a run of
    bytes that decodes, as UTF-8, to private-use and Latin-1 characters
    (page.js 478-499; e.g. Figma's is [EF A3 BF C3 BC C3 A9 C2 AE]).  The
    page never renders them.  They are kept here byte for byte. *)
Definition of_bytes (l : list nat) : string :=
  foldr (fun n s => String (ascii_of_nat n) s) EmptyString l.

Definition skillCategories : list skillCategory := [
  SkillCategory "Design Tools"
    [Skill "Figma" 95 (of_bytes [239; 163; 191; 195; 188; 195; 169; 194; 174]);
     Skill "Adobe XD" 85 (of_bytes [239; 163; 191; 195; 188; 195; 172; 195; 170]);
     Skill "Sketch" 75
       (of_bytes [226; 128; 154; 195; 186; 195; 168; 195; 148; 226; 136; 143; 195; 168]);
     Skill "Power BI" 80 (of_bytes [239; 163; 191; 195; 188; 195; 172; 195; 164])];
  SkillCategory "Technical Skills"
    [Skill "React" 75
       (of_bytes [226; 128; 154; 195; 182; 195; 181; 195; 148; 226; 136; 143; 195; 168]);
     Skill "SQL" 80
       (of_bytes [239; 163; 191; 195; 188; 195; 179; 195; 145; 195; 148; 226; 136; 143; 195; 168]);
     Skill "HTML/CSS" 85 (of_bytes [239; 163; 191; 195; 188; 195; 165; 195; 170]);
     Skill "JavaScript" 70 (of_bytes [239; 163; 191; 195; 188; 195; 172; 195; 186])];
  SkillCategory "UX Skills"
    [Skill "UX Research" 90 (of_bytes [239; 163; 191; 195; 188; 195; 174; 195; 167]);
     Skill "Wireframing" 88 (of_bytes [239; 163; 191; 195; 188; 195; 172; 195; 185]);
     Skill "Prototyping" 85 (of_bytes [239; 163; 191; 195; 188; 195; 169; 195; 152]);
     Skill "Usability Testing" 82 (of_bytes [226; 128; 154; 195; 186; 195; 150])]
].

(** Decimal digits of a number, as [String(n)] gives them. *)
Definition js_string_of_nat (n : nat) : string :=
  NilEmpty.string_of_uint (Nat.to_uint n).

(** The bar's [width], [`${skill.percentage}%`], page.js 541. *)
Definition bar_width (s : skill) : string := js_string_of_nat (percentage s) ++ "%".

(** A rendered skill: its name, the label [{skill.percentage}%] (page.js
    532-535) and the bar's width. *)
Record skill_row := SkillRow { row_name : string; row_label : string; row_width : string }.

Record skill_card := SkillCard { sc_title : string; sc_rows : list skill_row }.

Definition render_skill (s : skill) : skill_row :=
  SkillRow (name s) (js_string_of_nat (percentage s) +:+ "%") (bar_width s).

(** [skillCategories.map(...)], page.js 520-553. *)
Definition render_skills : list skill_card :=
  map (fun c => SkillCard (cat_title c) (map render_skill (cat_skills c))) skillCategories.

(** ** Sections *)

(** The [id]s of the page's sections, in order (page.js 132, 231, 367,
    505, 578). *)
Definition section_ids : list string := ["hero"; "about"; "projects"; "skills"; "contact"].

(** ** Lemmas on strings *)

Lemma string_app_nil_l r : "" +:+ r = r.
Proof. reflexivity. Qed.

Lemma prefix_app pat r : String.prefix pat (pat +:+ r) = true.
Proof.
  induction pat as [|c pat IH]; [destruct r; reflexivity|]. simpl.
  destruct (ascii_dec c c); [exact IH | done].
Qed.

Lemma length_app_string pat r :
  String.length (pat +:+ r) = String.length pat + String.length r.
Proof. induction pat; [reflexivity|]. simpl. lia. Qed.

Lemma substring_all r : String.substring 0 (String.length r) r = r.
Proof. induction r; [reflexivity|]. simpl. congruence. Qed.

Lemma substring_after pat r :
  String.substring (String.length pat) (String.length (pat +:+ r) - String.length pat) (pat +:+ r) = r.
Proof.
  rewrite length_app_string. replace (String.length pat + String.length r - String.length pat)
    with (String.length r) by lia.
  induction pat; simpl; [apply substring_all | exact IHpat].
Qed.

Lemma index_of_prefix s1 s2 : String.prefix s1 s2 = true -> String.index 0 s1 s2 = Some 0.
Proof.
  intros H. destruct s2 as [|a s]; cbn [String.index].
  - by destruct s1.
  - by rewrite H.
Qed.

Lemma index_prefix pat r : String.index 0 pat (pat +:+ r) = Some 0.
Proof. apply index_of_prefix, prefix_app. Qed.

(** Replacing a prefix. *)
Lemma js_replace_prefix pat rep r : js_replace (pat +:+ r) pat rep = rep +:+ r.
Proof.
  unfold js_replace. rewrite index_prefix, Nat.add_0_l, substring_after.
  by destruct (pat +:+ r).
Qed.

(** No occurrence, no change. *)
Lemma js_replace_absent s pat rep : String.index 0 pat s = None -> js_replace s pat rep = s.
Proof. unfold js_replace. by intros ->. Qed.

(** ** Theorems *)

(** C30: the text under a social link drops a leading [mailto:] or
    [https://] and keeps the rest, when the rest contains neither. *)
Theorem display_href_strips r :
  String.index 0 "mailto:" r = None -> String.index 0 "https://" r = None ->
  display_href ("mailto:" +:+ r) = r /\ display_href ("https://" +:+ r) = r.
Proof.
  intros Hm Hh. unfold display_href. split.
  - rewrite js_replace_prefix, string_app_nil_l. by apply js_replace_absent.
  - rewrite (js_replace_absent _ "mailto:").
    + by rewrite js_replace_prefix, string_app_nil_l.
    + vm_compute in Hm |- *. by rewrite Hm.
Qed.

(** ** Witnesses *)

Lemma display_href_strips_witness :
  display_href "mailto:nihalmishra@example.com" = "nihalmishra@example.com" /\
  display_href "https://nihalmishra@example.com" = "nihalmishra@example.com".
Proof. apply display_href_strips; reflexivity. Defined.

End Content.
