(* ===== verification/Page.v ===== *)
(** * The page: all components over one browser

    [Home] renders [Navbar], [Hero], [About], [Projects], [Skills],
    [Contact] and [Footer] (page.js 827-842).  The page state holds the
    three component instances that have state ([Home], [Projects],
    [Contact]) and the browser they share.  Loading the page mounts the
    tree; the only effects are [Home]'s.  A step is a user or browser
    event delivered to the component that handles it: the navigation bar's
    buttons and menu links (handled by [Home]'s setters), a scroll of the
    window, a click on a project card, an event of the contact form or of
    its timer, and a reload of the document.  The invariant of every
    reachable page combines the invariants of the components, and shows
    that a page loaded with storage enabled never fails.  Runs of the
    contact session lift to runs of the page, so the contact form's
    liveness holds on the whole page: from every reachable page the form
    comes back, with its draft, within 3000 ms. *)

From S2P Require Import Prelude Browser Hooks Home Navbar Projects Contact ContactView.

Module Page.

#[local] Existing Instance Navbar.home_navbar_props.

Record page := Page {
  home : fiber Home.state bool;
  proj : fiber Projects.state nat;
  contact : fiber Contact.state nat;
  br : browser
}.

(** A running page, or a page whose root was unmounted by an uncaught
    error, or a render loop. *)
Inductive status :=
  | Running (p : page)
  | Failed (e : js_error)
  | Hung.

(** Loading a document: React mounts the tree (page.js 786-843). *)
Definition load (b : browser) : status :=
  match Home.mount_home b with
  | Settled fb b' => Running (Page fb (Fiber Projects.initial []) (Fiber Contact.initial []) b')
  | Crashed e => Failed e
  | Looping => Hung
  end.

(** The page after [Home] handled an event. *)
Definition after_home (p : page) (o : outcome Home.state bool) : status :=
  match o with
  | Settled fb b => Running (Page fb (proj p) (contact p) b)
  | Crashed e => Failed e
  | Looping => Hung
  end.

Inductive event :=
  | ThemeClick                  (** a theme button of the bar *)
  | MenuClick                   (** the menu button *)
  | MobileLinkClick             (** a link of the open mobile menu *)
  | Scroll (y : Z)              (** the window scrolls to [y] *)
  | ProjectClick (pid : nat)    (** the button of the card [pid] *)
  | ContactEvent (ev : Contact.event)  (** the form, the clock, the timers *)
  | Reload.                     (** a new document *)

Inductive step : status -> event -> status -> Prop :=
  | step_theme p :
      step (Running p) ThemeClick
        (after_home p (Home.dispatch (home p) (Navbar.onThemeToggle (fb_state (home p))) (br p)))
  | step_menu p :
      step (Running p) MenuClick
        (after_home p (Home.dispatch (home p) (Navbar.onMenuToggle (fb_state (home p))) (br p)))
  | step_mobile_link p :
      Home.mobileMenuOpen (fb_state (home p)) = true ->
      step (Running p) MobileLinkClick
        (after_home p (Home.dispatch (home p)
                         (Navbar.onMobileLinkClick (fb_state (home p))) (br p)))
  | step_scroll p y :
      step (Running p) (Scroll y) (after_home p (Home.on_scroll (home p) (br p) y))
  | step_project p pr fb' b' :
      pr ∈ Projects.projects ->
      Projects.click (fb_state (proj p)) (Projects.id pr) (br p) = Settled fb' b' ->
      step (Running p) (ProjectClick (Projects.id pr)) (Running (Page (home p) fb' (contact p) b'))
  | step_contact p ev fb' b' :
      Contact.step (Contact.Session (contact p) (br p)) ev (Contact.Session fb' b') ->
      step (Running p) (ContactEvent ev) (Running (Page (home p) (proj p) fb' b'))
  | step_reload p :
      step (Running p) Reload (load (Navbar.reload (br p))).

(** A first visit: storage enabled, no listener and no timer yet. *)
Definition fresh (b : browser) : Prop :=
  ls_enabled b = true /\ listeners b = [] /\ timers b = [].

Inductive reachable : status -> Prop :=
  | reach_load b : fresh b -> reachable (load b)
  | reach_step st ev st' : reachable st -> step st ev st' -> reachable st'.

(** The invariant of a running page: [Home] is mounted and its state,
    class list and stored theme agree; its scroll listener is the only
    window listener; the project selection is reachable; the contact
    session's invariant holds. *)
Definition page_inv (p : page) : Prop :=
  (exists s, home p = Home.home_fiber s /\ Home.theme_synced s (br p)) /\
  listeners (br p) = [("scroll", HandleScroll)] /\
  fb_slots (proj p) = [] /\ Projects.reachable (fb_state (proj p)) /\
  Contact.contact_inv (Contact.Session (contact p) (br p)).

(** ** Lemmas *)

Lemma load_inv b : fresh b -> exists p, load b = Running p /\ page_inv p.
Proof.
  intros (Hen & Hl & Ht). unfold load. rewrite Home.mount_home_eq by done.
  eexists; split; [reflexivity|].
  assert (Hl2 : listeners (addEventListener (Home.persist false b) "scroll" HandleScroll)
                = [("scroll", HandleScroll)]).
  { apply addEventListener_fresh. by rewrite Home.persist_listeners. }
  split; [|split; [|split; [done|split; [constructor|]]]].
  - eexists; split; [reflexivity|]. unfold Home.mounted_browser.
    destruct (matchMedia b Home.dark_query).
    + apply Home.persist_synced; [|done].
      by rewrite addEventListener_enabled, Home.persist_enabled.
    + apply Home.synced_addEventListener, Home.persist_synced; done.
  - unfold Home.mounted_browser. cbn.
    destruct (matchMedia b Home.dark_query); rewrite ?Home.persist_listeners; exact Hl2.
  - split; [done|]. cbn. unfold Home.mounted_browser.
    destruct (matchMedia b Home.dark_query);
      rewrite ?Home.persist_timers, addEventListener_timers, Home.persist_timers; exact Ht.
Qed.

(** Any queue of [Home] updates keeps a running page and its invariant. *)
Lemma home_event_inv p q :
  page_inv p ->
  exists p', after_home p (Home.dispatch (home p) q (br p)) = Running p' /\ page_inv p'.
Proof.
  intros ((s & Hh & Hs) & Hl & Hps & Hpr & Hc). rewrite Hh.
  unfold Home.dispatch, render_limit. rewrite Home.settle_home by apply Hs.
  eexists; split; [reflexivity|].
  destruct (Home.rerender_frame s (apply_all q s) (br p)) as (Hl' & Ht' & Hn').
  split; [eexists; split; [reflexivity|]; by apply Home.rerender_synced|].
  cbn. rewrite Hl'. do 3 (split; [done|]).
  eapply Contact.inv_frame; [exact Ht' | exact Hn' | exact Hc].
Qed.

Lemma scroll_inv p y :
  page_inv p ->
  exists p', after_home p (Home.on_scroll (home p) (br p) y) = Running p' /\ page_inv p'.
Proof.
  intros ((s & Hh & Hs) & Hl & Hps & Hpr & Hc). rewrite Hh.
  rewrite Home.on_scroll_eq; [| exact Hs | unfold listeners_for; by rewrite Hl].
  eexists; split; [reflexivity|]. split; [|done].
  eexists; split; [reflexivity|].
  by apply (Home.synced_frame _ (br p)).
Qed.

Lemma project_inv p pr fb' b' :
  page_inv p -> pr ∈ Projects.projects ->
  Projects.click (fb_state (proj p)) (Projects.id pr) (br p) = Settled fb' b' ->
  page_inv (Page (home p) fb' (contact p) b').
Proof.
  intros (Hh & Hl & Hps & Hpr & Hc) Hin Hclick.
  rewrite Projects.click_eq in Hclick. injection Hclick as <- <-.
  split; [done|split; [done|split; [done|split; [by constructor|exact Hc]]]].
Qed.

Lemma contact_event_inv p ev fb' b' :
  page_inv p ->
  Contact.step (Contact.Session (contact p) (br p)) ev (Contact.Session fb' b') ->
  page_inv (Page (home p) (proj p) fb' b').
Proof.
  intros ((s & Hh & Hs) & Hl & Hps & Hpr & Hc) Hstep.
  pose proof (Contact.step_frame _ _ _ _ _ Hstep) as (He & Hi & Hcl & Hli).
  split; [|split; [|split; [done|split; [done|]]]]; cbn.
  - exists s. split; [done|]. by apply (Home.synced_frame _ (br p)).
  - by rewrite Hli.
  - exact (Contact.step_preserves_inv _ _ _ Hc Hstep).
Qed.

Lemma reload_fresh p : page_inv p -> fresh (Navbar.reload (br p)).
Proof. intros ((s & _ & Hs & _) & _). by split. Qed.

(** Every reachable page is running and satisfies the invariant. *)
Lemma reachable_page_inv st : reachable st -> exists p, st = Running p /\ page_inv p.
Proof.
  induction 1 as [b Hb|st ev st' _ IH Hstep].
  - by apply load_inv.
  - destruct IH as (p & -> & Hinv).
    inversion Hstep; subst.
    + by apply home_event_inv.
    + by apply home_event_inv.
    + by apply home_event_inv.
    + by apply scroll_inv.
    + eexists; split; [reflexivity|]. by eapply project_inv.
    + eexists; split; [reflexivity|]. by eapply contact_event_inv.
    + by apply load_inv, reload_fresh.
Qed.

(** A run of the contact session is a run of the page, the other
    components untouched. *)
Lemma lift_contact_run p c' :
  star Contact.step (Contact.Session (contact p) (br p)) c' ->
  star step (Running p) (Running (Page (home p) (proj p) (Contact.fb c') (Contact.br c'))).
Proof.
  remember (Contact.Session (contact p) (br p)) as c eqn:Hc. intros Hrun. revert p Hc.
  induction Hrun as [c|c ev [f1 b1] c'' Hstep _ IH]; intros p ->.
  - destruct p. apply star_refl.
  - eapply star_step; [by apply step_contact|].
    exact (IH (Page (home p) (proj p) f1 b1) eq_refl).
Qed.

(** Runs from a reachable page reach reachable pages. *)
Lemma star_reachable st st' : reachable st -> star step st st' -> reachable st'.
Proof.
  intros Hr Hrun. revert Hr. induction Hrun as [|a ev b c Hstep _ IH]; [done|].
  intros Ha. apply IH. by eapply reach_step.
Qed.

(** ** Theorems *)

(** C6: a page loaded with storage enabled never fails and never loops,
    whatever sequence of clicks, scrolls, form events, timers and reloads
    follows. *)
Theorem page_never_fails st :
  reachable st -> st <> Hung /\ forall e, st <> Failed e.
Proof.
  intros Hr. destruct (reachable_page_inv st Hr) as (p & -> & _). done.
Qed.

(** C9: in every reachable page, the theme icon of the bar, the [dark]
    class of the root element and the stored theme agree: the sun icon
    shows exactly when the class is set, and [localStorage] holds the
    theme of the state. *)
Theorem theme_display_consistent p :
  reachable (Running p) ->
  (Navbar.theme_icon (Navbar.render (fb_state (home p))) = Navbar.Sun <->
   "dark" ∈ html_classes (br p)) /\
  ls_items (br p) !! "theme" = Some (Home.theme_value (Home.isDark (fb_state (home p)))).
Proof.
  intros Hr. destruct (reachable_page_inv _ Hr) as (p' & Heq & (s & Hh & _ & Hi & Hd) & _).
  injection Heq as <-. rewrite Hh. cbn. split; [|exact Hi].
  rewrite Hd. by destruct (Home.isDark s).
Qed.

(** C18: in every reachable page the window has exactly one listener,
    [Home]'s scroll handler, however often the theme was toggled or the
    page reloaded (the effect's cleanup removes the old one); and the
    success message of the contact form is shown exactly when one reset
    timer is pending, due within the next 3000 ms. *)
Theorem page_listeners_and_timers p :
  reachable (Running p) ->
  listeners (br p) = [("scroll", HandleScroll)] /\
  (Contact.submitted (fb_state (contact p)) = true <->
   exists i due, timers (br p) = [Timer i due ResetSubmitted] /\
                 (now (br p) <= due <= now (br p) + Contact.reset_delay)%Z).
Proof.
  intros Hr. destruct (reachable_page_inv _ Hr) as (p' & Heq & _ & Hl & _ & _ & _ & Hc).
  injection Heq as <-. split; [exact Hl|]. cbn in Hc.
  destruct (Contact.submitted (fb_state (contact p))).
  - destruct Hc as (_ & Ht). split; intros _; [exact Ht | done].
  - rewrite Hc. split; [done|]. intros (i & due & Ht & _). discriminate.
Qed.

(** C17: on the whole page the contact form's success message can
    always be hidden: from every reachable page some run of contact events
    (time passing to the reset timer's due time, the timer firing) reaches
    a reachable page, at most 3000 ms later, where the form is rendered
    again showing the draft as it was, no timer is pending, and [Home] and
    [Projects] are as they were. *)
Theorem page_message_eventually_hidden p :
  reachable (Running p) ->
  exists p', star step (Running p) (Running p') /\ reachable (Running p') /\
    (forall f, ContactView.rendered_value (ContactView.render (fb_state (contact p'))) f =
               Some (Contact.field_value (Contact.form (fb_state (contact p))) f)) /\
    timers (br p') = [] /\ (now (br p') <= now (br p) + Contact.reset_delay)%Z /\
    home p' = home p /\ proj p' = proj p.
Proof.
  intros Hr. destruct (reachable_page_inv _ Hr) as (p0 & [= <-] & _ & _ & _ & _ & Hc).
  destruct (Contact.hide_message_run _ Hc) as ([f' b'] & Hrun & Hs & Ht & Hn & Hf).
  pose proof (lift_contact_run p _ Hrun) as Hpage. cbn in *.
  eexists. split; [exact Hpage|]. split; [exact (star_reachable _ _ Hr Hpage)|].
  split; [|done]. intros f. cbn [contact].
  rewrite ContactView.render_editing by exact Hs. by rewrite Hf.
Qed.

(** ** Witnesses *)

Definition first_visit : browser := Browser true ∅ ∅ ∅ 0 [] [] 0 0.

Lemma first_visit_reachable : reachable (load first_visit).
Proof. apply reach_load. split; [reflexivity | split; reflexivity]. Qed.

Lemma page_never_fails_witness :
  load first_visit <> Hung /\ forall e, load first_visit <> Failed e.
Proof. apply page_never_fails, first_visit_reachable. Defined.

Lemma theme_display_consistent_witness :
  match load first_visit with
  | Running p =>
      (Navbar.theme_icon (Navbar.render (fb_state (home p))) = Navbar.Sun <->
       "dark" ∈ html_classes (br p)) /\
      ls_items (br p) !! "theme" = Some (Home.theme_value (Home.isDark (fb_state (home p))))
  | _ => False
  end.
Proof.
  pose proof first_visit_reachable as Hr.
  destruct (load first_visit) as [p| |] eqn:E;
    [apply theme_display_consistent, Hr | vm_compute in E; discriminate ..].
Defined.

Lemma page_listeners_and_timers_witness :
  match load first_visit with
  | Running p =>
      listeners (br p) = [("scroll", HandleScroll)] /\
      (Contact.submitted (fb_state (contact p)) = true <->
       exists i due, timers (br p) = [Timer i due ResetSubmitted] /\
                     (now (br p) <= due <= now (br p) + Contact.reset_delay)%Z)
  | _ => False
  end.
Proof.
  pose proof first_visit_reachable as Hr.
  destruct (load first_visit) as [p| |] eqn:E;
    [apply page_listeners_and_timers, Hr | vm_compute in E; discriminate ..].
Defined.

Lemma page_message_eventually_hidden_witness :
  match load first_visit with
  | Running p =>
      exists p', star step (Running p) (Running p') /\ reachable (Running p') /\
        (forall f, ContactView.rendered_value (ContactView.render (fb_state (contact p'))) f =
                   Some (Contact.field_value (Contact.form (fb_state (contact p))) f)) /\
        timers (br p') = [] /\ (now (br p') <= now (br p) + Contact.reset_delay)%Z /\
        home p' = home p /\ proj p' = proj p
  | _ => False
  end.
Proof.
  pose proof first_visit_reachable as Hr.
  destruct (load first_visit) as [p| |] eqn:E;
    [apply page_message_eventually_hidden, Hr | vm_compute in E; discriminate ..].
Defined.

End Page.
