(* ===== verification/Motion.v ===== *)
(** * Entrance animations (framer-motion)

    Every section of the page fades its elements in with framer-motion.
    Most elements are scroll reveals: a [motion] element with an
    [initial] style, a [whileInView] style, [viewport={{ once: true }}] and
    a [transition] with a delay that grows with the element's index in its
    list.  The Hero's items instead animate on mount, staggered by their
    container's variants.

    The library's behaviour is modelled as its documentation states it: an
    element shows its [initial] style until it enters the viewport, then
    animates to its [whileInView] style, starting [delay] after the entry
    and lasting [duration]; with [once] the element stops observing the
    viewport after the first entry, otherwise leaving it animates back.  A
    container's [delayChildren] and [staggerChildren] delay its [i]-th
    child by [delayChildren + i * staggerChildren].  Styles are the
    animated properties with their values: opacity and scale in hundredths,
    offsets in pixels, widths in percent; times are in milliseconds.
    The page's reveals are listed per section ([about_reveals] to
    [contact_reveals]) in the order [Home] renders the sections.

    The theorems: once revealed an element never hides again, whatever the
    later scrolling; every skill bar reaches its width within 1300 ms of
    entering the viewport.  The Hero's staggered items are modelled
    ([hero_item]) without a theorem of their own. *)

From S2P Require Import Prelude Projects Content.

Module Motion.

#[local] Open Scope Z_scope.

(** ** The library's model *)

Inductive prop := Opacity | X | Y | Scale | Width.

#[export] Instance prop_eq_dec : EqDecision prop.
Proof. solve_decision. Defined.

Definition style := list (prop * Z).

(** A [motion] element with [initial], [whileInView], [viewport.once]
    and its [transition]; [r_duration] is [None] when the source leaves
    the library's default. *)
Record reveal := Reveal {
  r_initial : style; r_target : style; r_once : bool;
  r_delay : Z; r_duration : option Z
}.

(** Where an element stands with respect to the viewport. *)
Inductive vstate := Hidden | Revealed (since : Z).

Inductive vevent := Enter (t : Z) | Leave (t : Z).

(** The viewport observer of one element. *)
Definition vstep (r : reveal) (v : vstate) (e : vevent) : vstate :=
  match v, e with
  | Hidden, Enter t => Revealed t
  | Revealed _, Leave _ => if r_once r then v else Hidden
  | _, _ => v
  end.

Definition vrun (r : reveal) (v : vstate) (evs : list vevent) : vstate :=
  fold_left (vstep r) evs v.

(** The style the element animates towards. *)
Definition goal (r : reveal) (v : vstate) : style :=
  match v with Hidden => r_initial r | Revealed _ => r_target r end.

(** Has the animation to the target ended by time [t]? *)
Definition finished_at (r : reveal) (v : vstate) (t : Z) : bool :=
  match v, r_duration r with
  | Revealed t0, Some d => bool_decide (t0 + r_delay r + d <= t)%Z
  | _, _ => false
  end.

(** The delay of the [i]-th child of a container with [delayChildren] and
    [staggerChildren]. *)
Definition child_delay (delay_children stagger : Z) (i : nat) : Z :=
  (delay_children + Z.of_nat i * stagger)%Z.

(** ** The page's animated elements *)

(** A section heading: [initial={{ opacity: 0, y: 20 }}],
    [whileInView={{ opacity: 1, y: 0 }}], [duration: 0.6] (About 233-238;
    Projects, Skills and Contact repeat it). *)
Definition section_heading : reveal :=
  Reveal [(Opacity, 0); (Y, 20)] [(Opacity, 100); (Y, 0)] true 0 (Some 600).

(** The left column of About and Contact: [x: -30]. *)
Definition column_left : reveal :=
  Reveal [(Opacity, 0); (X, -30)] [(Opacity, 100); (X, 0)] true 0 (Some 600).

(** The right column of About and Contact: [x: 30]. *)
Definition column_right : reveal :=
  Reveal [(Opacity, 0); (X, 30)] [(Opacity, 100); (X, 0)] true 0 (Some 600).

(** About's skill tags: [scale: 0.8], [delay: index * 0.1]. *)
Definition about_tag (index : nat) : reveal :=
  Reveal [(Opacity, 0); (Scale, 80)] [(Opacity, 100); (Scale, 100)] true
    (Z.of_nat index * 100) None.

(** About's education entries: [y: 20], [delay: index * 0.2]. *)
Definition education_item (index : nat) : reveal :=
  Reveal [(Opacity, 0); (Y, 20)] [(Opacity, 100); (Y, 0)] true (Z.of_nat index * 200) None.

(** A project card: [y: 30], [delay: index * 0.1]. *)
Definition project_card (index : nat) : reveal :=
  Reveal [(Opacity, 0); (Y, 30)] [(Opacity, 100); (Y, 0)] true (Z.of_nat index * 100) None.

(** A skill category card: [y: 30], [delay: catIndex * 0.1]. *)
Definition category_card (catIndex : nat) : reveal :=
  Reveal [(Opacity, 0); (Y, 30)] [(Opacity, 100); (Y, 0)] true (Z.of_nat catIndex * 100) None.

(** A skill bar: [width: 0] to [`${skill.percentage}%`], [duration: 1],
    [delay: skillIndex * 0.1]. *)
Definition skill_bar (skillIndex : nat) (s : Content.skill) : reveal :=
  Reveal [(Width, 0)] [(Width, Z.of_nat (Content.percentage s))] true
    (Z.of_nat skillIndex * 100) (Some 1000).

(** About's reveals: the heading, the introduction column with its skill
    tags, the education column with its entries (page.js 233-303). *)
Definition about_reveals : list reveal :=
  [section_heading; column_left] ++ imap (fun i _ => about_tag i) Content.about_skills ++
  [column_right] ++ imap (fun i _ => education_item i) Content.education.

(** Projects' reveals: the heading and one card per project (page.js
    369-390). *)
Definition projects_reveals : list reveal :=
  section_heading :: imap (fun i _ => project_card i) Projects.projects.

(** Skills' reveals: the heading, one card per category and one bar per
    skill (page.js 506-544). *)
Definition skills_reveals : list reveal :=
  [section_heading] ++ imap (fun i _ => category_card i) Content.skillCategories ++
  concat (map (fun c => imap skill_bar (Content.cat_skills c)) Content.skillCategories).

(** Contact's reveals: the heading, the form column and the information
    column (page.js 583-602 and 669-673). *)
Definition contact_reveals : list reveal := [section_heading; column_left; column_right].

(** Every scroll reveal of the page, section by section. *)
Definition page_reveals : list reveal :=
  about_reveals ++ projects_reveals ++ skills_reveals ++ contact_reveals.

(** The Hero: [containerVariants] (page.js 111-120) and [itemVariants]
    (122-129) on the badge, the name, the tagline, the buttons and the
    scroll indicator, shown on mount ([initial="hidden"],
    [animate="visible"], page.js 138-197).  The scroll indicator also has an
    [animate={{ y: [0, 10, 0] }}] of its own that repeats forever (page.js
    194-195); that loop is not modelled. *)
Definition hero_stagger : Z := 200.
Definition hero_delay_children : Z := 300.

Definition hero_items : list string := ["badge"; "name"; "tagline"; "buttons"; "scroll indicator"].

Definition hero_item (i : nat) : reveal :=
  Reveal [(Opacity, 0); (Y, 30)] [(Opacity, 100); (Y, 0)] true
    (child_delay hero_delay_children hero_stagger i) (Some 600).

(** ** Lemmas *)

(** With [once], an element that entered the viewport stays revealed, at
    its first entry time, whatever the later viewport events. *)
Lemma vrun_once r t evs : r_once r = true -> vrun r (Revealed t) evs = Revealed t.
Proof.
  intros Hr. unfold vrun. induction evs as [|[t'|t'] evs IH]; cbn; [done|exact IH|].
  rewrite Hr. exact IH.
Qed.

Lemma page_reveals_once : Forall (fun r => r_once r = true) page_reveals.
Proof. vm_compute. repeat constructor. Qed.

(** Each skill category has four skills, each at most 100%. *)
Lemma skill_data :
  Forall (fun c => length (Content.cat_skills c) = 4%nat /\
            Forall (fun s => (Content.percentage s <= 100)%nat) (Content.cat_skills c))
    Content.skillCategories.
Proof. vm_compute. repeat constructor; lia. Qed.

(** ** Theorems *)

(** C28: every scroll reveal of the page has [viewport={{ once: true }}]:
    once it entered the viewport it stays revealed at its first entry
    time, so it never hides again nor restarts its animation, whatever the
    later scrolling. *)
Theorem reveal_once_stays r t evs :
  r ∈ page_reveals ->
  vrun r Hidden (Enter t :: evs) = Revealed t /\
  goal r (vrun r Hidden (Enter t :: evs)) = r_target r.
Proof.
  intros Hin. assert (Hr : vrun r Hidden (Enter t :: evs) = Revealed t).
  { apply vrun_once. exact (proj1 (Forall_forall _ _) page_reveals_once r Hin). }
  by rewrite Hr.
Qed.

(** C29: every skill bar that enters the viewport at time [t] has reached
    its full width by [t + 1300] ms: its delay is at most 300 ms (four
    skills per category) and its duration 1000 ms; the width is within the
    track. *)
Theorem skill_bars_fill c i s t :
  c ∈ Content.skillCategories -> Content.cat_skills c !! i = Some s ->
  finished_at (skill_bar i s) (Revealed t) (t + 1300) = true /\
  goal (skill_bar i s) (Revealed t) = [(Width, Z.of_nat (Content.percentage s))] /\
  Z.of_nat (Content.percentage s) <= 100.
Proof.
  intros Hc Hs. destruct (proj1 (Forall_forall _ _) skill_data c Hc) as [Hlen Hp].
  pose proof (lookup_lt_Some _ _ _ Hs) as Hi. rewrite Hlen in Hi.
  pose proof (proj1 (Forall_forall _ _) Hp s (list_elem_of_lookup_2 _ _ _ Hs)) as Hps.
  cbv beta in Hps.
  split; [|split; [done|lia]]. cbn. apply bool_decide_eq_true. lia.
Qed.

(** ** Witnesses *)

Lemma reveal_once_stays_witness :
  let r := skill_bar 0 (Content.Skill "Figma" 95
             (Content.of_bytes [239; 163; 191; 195; 188; 195; 169; 194; 174]%nat)) in
  vrun r Hidden [Enter 10; Leave 20; Enter 30] = Revealed 10 /\
  goal r (vrun r Hidden [Enter 10; Leave 20; Enter 30]) = [(Width, 95)].
Proof.
  intros r. apply (reveal_once_stays r 10 [Leave 20; Enter 30]).
  vm_compute. do 19 apply list_elem_of_further. apply list_elem_of_here.
Defined.

Lemma skill_bars_fill_witness :
  let c := Content.SkillCategory "Design Tools"
    [Content.Skill "Figma" 95 (Content.of_bytes [239; 163; 191; 195; 188; 195; 169; 194; 174]%nat);
     Content.Skill "Adobe XD" 85 (Content.of_bytes [239; 163; 191; 195; 188; 195; 172; 195; 170]%nat);
     Content.Skill "Sketch" 75
       (Content.of_bytes [226; 128; 154; 195; 186; 195; 168; 195; 148; 226; 136; 143; 195; 168]%nat);
     Content.Skill "Power BI" 80 (Content.of_bytes [239; 163; 191; 195; 188; 195; 172; 195; 164]%nat)] in
  let s := Content.Skill "Power BI" 80 (Content.of_bytes [239; 163; 191; 195; 188; 195; 172; 195; 164]%nat) in
  c ∈ Content.skillCategories /\ Content.cat_skills c !! 3%nat = Some s /\
  finished_at (skill_bar 3 s) (Revealed 0) 1300 = true /\
  goal (skill_bar 3 s) (Revealed 0) = [(Width, 80)] /\ 80 <= 100.
Proof.
  intros c s. assert (Hc : c ∈ Content.skillCategories) by apply list_elem_of_here.
  assert (Hs : Content.cat_skills c !! 3%nat = Some s) by reflexivity.
  split; [exact Hc|]. split; [exact Hs|]. exact (skill_bars_fill c 3 s 0 Hc Hs).
Defined.

End Motion.
