(* ===== verification/Layout.v ===== *)
(** * The root layout (layout.js)

    Next.js wraps the page in [RootLayout]: an [html] element with
    [lang="en"] and [suppressHydrationWarning], and a [body] whose class is
    the one [next/font] generates for the Inter font with the latin subset.
    The [metadata] export gives the document's title and description.  The
    theorem: the title is the name and the role the Hero shows, and the
    name is the same in the title, the Hero, About and the footer. *)

From S2P Require Import Prelude Content.

Module Layout.

(** [export const metadata], layout.js 6-9. *)
Record meta := Meta { meta_title : string; meta_description : string }.

Definition metadata : meta := {|
  meta_title := "Nihal Mishra | UI/UX Designer & MCA Student";
  meta_description := "Portfolio of Nihal Mishra - UI/UX Designer and MCA Student specializing in creating intuitive digital experiences"
|}.

(** [Inter({ subsets: ['latin'] })], layout.js 4: the font the library
    loads; its [className] is generated by [next/font]. *)
Record font := Font { family : string; subsets : list string }.

Definition inter : font := Font "Inter" ["latin"].

(** The element tree [RootLayout] returns, layout.js 11-17. *)
Record body := Body { body_font_class : font; body_children : list string }.

Record html := Html { html_lang : string; suppress_hydration_warning : bool; html_body : body }.

Definition RootLayout (children : list string) : html :=
  Html "en" true (Body inter children).

(** ** Theorems *)

(** The document title is the Hero's name, a bar, and the Hero's
    badge, and the page shows the same name in the Hero, About's greeting
    and the footer. *)
Theorem title_matches_hero :
  meta_title metadata = Content.hero_name +:+ " | " +:+ Content.hero_badge /\
  Content.about_greeting = "Hello, I'm " +:+ Content.hero_name /\
  Content.footer_name = Content.hero_name /\
  String.prefix ("Portfolio of " +:+ Content.hero_name) (meta_description metadata) = true.
Proof. repeat split; reflexivity. Qed.

End Layout.
